(** * Eris: the response lifecycle of [CommandInteraction]

    A shallow embedding of [lib/structures/CommandInteraction.js]: the
    constructor with its resolved-entity pass, and the nine response methods
    with their acknowledgment guards, content normalization and outbound
    requests.  JavaScript values are embedded as a small value type, the
    instance as a record, and the asynchronous methods as computations in a
    state-and-exception monad whose state holds the instance and the log of
    requests handed to the request layer.  Methods are run one after the
    other: each call is awaited before the next one starts. *)

From Stdlib Require Import ZArith String Ascii List Bool Lia DecimalString.
From stdpp Require Import gmap strings.
Import ListNotations.
Local Open Scope string_scope.
Local Open Scope Z_scope.
Set Warnings "-register-all".

(** ** JavaScript values *)

(** The values that reach the class: primitives, arrays and plain objects,
    the shapes of JSON data and of message content.  Numbers are the integers
    a double holds exactly and prints as a plain numeral (flags, counts,
    codes); NaN, fractions and the exponent notation of very large numbers
    are outside the embedding.  An array carries its elements and the named
    properties written on it; an object carries its own properties, oldest
    first. *)
Inductive value : Type :=
| VUndefined
| VNull
| VBool (b : bool)
| VNum (n : Z)
| VStr (s : string)
| VArr (elems : list value) (named : list (string * value))
| VObj (props : list (string * value)).

Module JS.

(** [typeof v] *)
Definition typeof (v : value) : string :=
  match v with
  | VUndefined => "undefined"
  | VNull => "object"
  | VBool _ => "boolean"
  | VNum _ => "number"
  | VStr _ => "string"
  | VArr _ _ => "object"
  | VObj _ => "object"
  end.

(** [v === undefined] and [v === null] *)
Definition is_undefined (v : value) : bool :=
  match v with VUndefined => true | _ => false end.

Definition is_null (v : value) : bool :=
  match v with VNull => true | _ => false end.

(** ToBoolean, as used by [!v], [a || b] and [if (v)] *)
Definition truthy (v : value) : bool :=
  match v with
  | VUndefined | VNull => false
  | VBool b => b
  | VNum n => negb (n =? 0)
  | VStr s => negb (String.eqb s "")
  | VArr _ _ | VObj _ => true
  end.

(** [a || b] *)
Definition or (a b : value) : value := if truthy a then a else b.

Definition string_of_Z (n : Z) : string := NilZero.string_of_int (Z.to_int n).

Definition string_of_nat (n : nat) : string := NilZero.string_of_uint (Nat.to_uint n).

Fixpoint join (sep : string) (l : list string) : string :=
  match l with
  | [] => ""
  | [x] => x
  | x :: rest => x ++ sep ++ join sep rest
  end.

(** [String(v)], the conversion behind [sep + v]: an array is the
    comma-joined conversion of its elements, with [undefined] and [null]
    elements left empty; a plain object is ["[object Object]"]. *)
Fixpoint ToString (v : value) : string :=
  match v with
  | VUndefined => "undefined"
  | VNull => "null"
  | VBool true => "true"
  | VBool false => "false"
  | VNum n => string_of_Z n
  | VStr s => s
  | VArr elems _ =>
      join "," (List.map (fun e => match e with
                                   | VUndefined | VNull => ""
                                   | _ => ToString e
                                   end) elems)
  | VObj _ => "[object Object]"
  end.

(** [a + b] with a string on the left *)
Definition concat (s : string) (v : value) : value := VStr (s ++ ToString v).

(** Own properties, kept as an association list *)
Fixpoint assoc (k : string) (l : list (string * value)) : option value :=
  match l with
  | [] => None
  | (k', v) :: rest => if String.eqb k k' then Some v else assoc k rest
  end.

Fixpoint assoc_set (k : string) (v : value) (l : list (string * value))
  : list (string * value) :=
  match l with
  | [] => [(k, v)]
  | (k', v') :: rest =>
      if String.eqb k k' then (k, v) :: rest else (k', v') :: assoc_set k v rest
  end.

(** The array index a property name denotes, if it is the canonical numeral
    of one *)
Definition index_of (k : string) : option nat :=
  match NilZero.uint_of_string k with
  | Some d =>
      let n := Nat.of_uint d in
      if String.eqb (string_of_nat n) k then Some n else None
  | None => None
  end.

Definition char_at (s : string) (i : nat) : value :=
  match String.get i s with
  | Some c => VStr (String c EmptyString)
  | None => VUndefined
  end.

(** [v.k] for a [v] that is neither [undefined] nor [null], and a name [k]
    that is an own property or no property at all: the class reads [content],
    [embeds] and [allowedMentions], none of which is inherited. *)
Definition prop (v : value) (k : string) : value :=
  match v with
  | VObj props => default VUndefined (assoc k props)
  | VArr elems named =>
      if String.eqb k "length" then VNum (Z.of_nat (List.length elems))
      else match index_of k with
           | Some i => nth i elems VUndefined
           | None => default VUndefined (assoc k named)
           end
  | VStr s =>
      if String.eqb k "length" then VNum (Z.of_nat (String.length s))
      else match index_of k with
           | Some i => char_at s i
           | None => VUndefined
           end
  | _ => VUndefined
  end.

(** [o.k = v] for a name [k] that is neither an array index nor
    ["length"]: the class writes [content] and [allowed_mentions] only, and
    only on a value it has found to be an object. *)
Definition assign_prop (o : value) (k : string) (v : value) : value :=
  match o with
  | VObj props => VObj (assoc_set k v props)
  | VArr elems named => VArr elems (assoc_set k v named)
  | _ => o
  end.

Fixpoint indexed (i : nat) (l : list value) : list (string * value) :=
  match l with
  | [] => []
  | x :: rest => (string_of_nat i, x) :: indexed (S i) rest
  end.

Fixpoint chars (s : string) : list value :=
  match s with
  | EmptyString => []
  | String c rest => VStr (String c EmptyString) :: chars rest
  end.

(** The own enumerable properties [Object.assign] copies from a source *)
Definition own_enumerable (v : value) : list (string * value) :=
  match v with
  | VObj props => props
  | VArr elems named => indexed 0 elems ++ named
  | VStr s => indexed 0 (chars s)
  | _ => []
  end.

(** [Object.assign(target, source)] on a fresh object literal [target]:
    the properties of the source are written one by one, a name already
    there keeping its place. *)
Definition Object_assign (target : list (string * value)) (source : value) : value :=
  VObj (fold_left (fun acc kv => assoc_set (fst kv) (snd kv) acc)
                  (own_enumerable source) target).

End JS.

(** ** Errors, requests and the client *)

(** What a rejected request carries: the request layer's own error classes *)
Inductive rejection : Type :=
| DiscordRESTError (code : Z) (message : string)
| DiscordHTTPError (code : Z) (message : string).

(** What a method can throw: [new Error(message)] raised by the class
    itself, a [TypeError] raised by the runtime, or the rejection of the
    request layer, passed on unchanged. *)
Inductive error : Type :=
| Error (message : string)
| TypeError (message : string)
| Rejected (r : rejection).

(** The two members of [Constants.InteractionResponseTypes] the class uses.
    Their numeric codes are in [lib/Constants.js], which is not part of the
    sources at hand; they are kept symbolic. *)
Inductive InteractionResponseTypes : Type :=
| CHANNEL_MESSAGE_WITH_SOURCE
| DEFERRED_CHANNEL_MESSAGE_WITH_SOURCE.

(** A call of a client method, with its arguments.  The body of
    [createInteractionResponse] is the literal [{type, data}]. *)
Inductive request : Type :=
| createInteractionResponse (interactionID token : string)
    (type : InteractionResponseTypes) (data : value)
| executeWebhook (applicationID token : string) (options : value)
| deleteWebhookMessage (applicationID token : string) (messageID : value)
| editWebhookMessage (applicationID token : string) (messageID : value) (options : value)
| getWebhookMessage (applicationID token : string) (messageID : value).

Definition is_initial_response (r : request) : bool :=
  match r with createInteractionResponse _ _ _ _ => true | _ => false end.

Record Guild : Type := { guild_id_of : string }.

(** The client, as far as the class uses it: the guild registry
    [client.guilds], [_formatAllowedMentions], and the request methods.  What
    the platform answers to a request is a function of the requests sent so far
    and of the request itself; nothing else is assumed about it. *)
Record Client : Type := {
  guilds : gmap string Guild;
  _formatAllowedMentions : value -> value;
  answer : list request -> request -> rejection + value
}.

(** ** The interaction payload *)

(** A snowflake ID is a non-empty decimal numeral. *)
Definition is_digit (c : ascii) : bool :=
  (48 <=? nat_of_ascii c)%nat && (nat_of_ascii c <=? 57)%nat.

Fixpoint all_digits (s : string) : bool :=
  match s with
  | EmptyString => true
  | String c rest => is_digit c && all_digits rest
  end.

Definition is_snowflake (s : string) : bool :=
  negb (String.eqb s "") && all_digits s.

(** One kind of the resolved block as the gateway delivers it: a plain JSON
    object from snowflake ID to raw entity. *)
Record block : Type := {
  entries : list (string * value);
  entries_keyed_by_id : forallb (fun kv => is_snowflake (fst kv)) entries = true
}.

(** [o.k] on a block *)
Definition block_prop (o : block) (k : string) : value :=
  default VUndefined (JS.assoc k (entries o)).

Module Payload.

Record Resolved : Type := {
  users : option block;
  members : option block;
  roles : option block;
  channels : option block;
  messages : option block
}.

(** [info.data]: the command's own fields ([id], [name], [type],
    [target_id], [options]) and the optional resolved block *)
Record Data : Type := {
  command : value;
  resolved : option Resolved
}.

Record Info : Type := {
  id : string;
  token : string;
  application_id : string;
  channel_id : option string;
  data : Data;
  guild_id : option string;
  member : option value;
  user : option value
}.

End Payload.

(** ** Entities *)

(** What [new Member] receives as its second argument: the guild found in
    the registry, [undefined], or, in the resolved pass, the client. *)
Inductive reference : Type :=
| RUndefined
| RGuild (g : Guild)
| RClient (c : Client).

(** Modelled from the spec: the entity classes [User], [Member], [Role],
    [Channel] and [Message] ([lib/structures/User.js] and the others are not
    part of the sources at hand).  Section 4.1: for each entry the typed
    entity is constructed from the raw object; a member is built with its
    owning guild, and without one it is a guild-less member record. *)
Record User : Type := { user_raw : value }.
Record Member : Type := { member_raw : value; member_guild : reference }.
Record Role : Type := { role_raw : value }.
Record Channel : Type := { channel_raw : value }.
Record Message : Type := { message_raw : value }.

Definition new_User (data : value) (client : Client) : User :=
  {| user_raw := data |}.
Definition new_Member (data : value) (guild : reference) (client : option Client) : Member :=
  {| member_raw := data; member_guild := guild |}.
Definition new_Role (data : value) (client : Client) : Role :=
  {| role_raw := data |}.
Definition new_Channel (data : value) (client : Client) : Channel :=
  {| channel_raw := data |}.
Definition new_Message (data : value) (client : Client) : Message :=
  {| message_raw := data |}.

Definition guildless (m : Member) : Prop := member_guild m = RUndefined.

(** ** The instance and the method monad *)

Record CommandInteraction : Type := {
  _client : Client;
  id : string;
  applicationID : string;
  token : string;
  acknowledged : option bool;
  channelID : option string;
  data : option Payload.Data;
  guildID : option string;
  member : option Member;
  user : option User
}.

(** [this.acknowledged === b] *)
Definition acknowledged_is (b : bool) (this : CommandInteraction) : bool :=
  match acknowledged this with
  | Some b' => Bool.eqb b b'
  | None => false
  end.

(** The state a method runs in: the instance and the requests sent so far,
    oldest first. *)
Record world : Type := { this : CommandInteraction; sent : list request }.

Definition M (A : Type) : Type := world -> (error + A) * world.

Definition ret {A} (a : A) : M A := fun w => (inr a, w).

Definition bind {A B} (m : M A) (k : A -> M B) : M B :=
  fun w => match m w with
           | (inl e, w') => (inl e, w')
           | (inr a, w') => k a w'
           end.

Definition throw {A} (e : error) : M A := fun w => (inl e, w).

Definition get_this : M CommandInteraction := fun w => (inr (this w), w).

Definition set_this (f : CommandInteraction -> CommandInteraction) : M unit :=
  fun w => (inr tt, {| this := f (this w); sent := sent w |}).

Declare Scope js_scope.
Delimit Scope js_scope with js.
Notation "x <- m ;; k" := (bind m (fun x => k))
  (at level 100, m at next level, right associativity) : js_scope.
Notation "m ;; k" := (bind m (fun _ => k))
  (at level 100, right associativity) : js_scope.
Local Open Scope js_scope.

(** Handing a request to the client and awaiting it: the request is logged,
    and the platform's answer either resolves or rejects the promise. *)
Definition await (r : request) : M value :=
  fun w =>
    let w' := {| this := this w; sent := sent w ++ [r] |} in
    match answer (_client (this w)) (sent w) r with
    | inl rej => (inl (Rejected rej), w')
    | inr v => (inr v, w')
    end.

(** No embedded value is a function: applying one raises a [TypeError]. *)
Definition call {A} (callee : value) (name : string) : M A :=
  throw (TypeError (name ++ " is not a function")).

(** [v.k] where [v] may be [undefined] or [null] *)
Definition member_of (v : value) (k : string) : M value :=
  match v with
  | VUndefined => throw (TypeError ("Cannot read properties of undefined (reading '" ++ k ++ "')"))
  | VNull => throw (TypeError ("Cannot read properties of null (reading '" ++ k ++ "')"))
  | _ => ret (JS.prop v k)
  end.

(** [list.forEach((x, i) => body)] *)
Fixpoint forEach_from {A} (i : nat) (l : list A) (body : A -> nat -> M unit) : M unit :=
  match l with
  | [] => ret tt
  | x :: rest => body x i ;; forEach_from (S i) rest body
  end.

Definition forEach {A} (l : list A) (body : A -> nat -> M unit) : M unit :=
  forEach_from 0 l body.

(** ** The base class *)

(** Modelled from the spec: the base class [Interaction]
    ([lib/structures/Interaction.js] is not part of the sources at hand).
    Sections 2, 3 and 4.2: the instance is bound to the interaction's
    identity (id, token, application ID) and to the client, it starts out
    unacknowledged, and [update], run when an initial response has completed,
    moves it to acknowledged. *)
Definition Interaction_constructor (info : Payload.Info) (client : Client)
  : CommandInteraction :=
  {| _client := client;
     id := Payload.id info;
     applicationID := Payload.application_id info;
     token := Payload.token info;
     acknowledged := Some false;
     channelID := None;
     data := None;
     guildID := None;
     member := None;
     user := None |}.

Definition with_acknowledged (a : option bool) (t : CommandInteraction) : CommandInteraction :=
  {| _client := _client t; id := id t; applicationID := applicationID t;
     token := token t; acknowledged := a; channelID := channelID t;
     data := data t; guildID := guildID t; member := member t; user := user t |}.

Definition with_channelID (c : option string) (t : CommandInteraction) : CommandInteraction :=
  {| _client := _client t; id := id t; applicationID := applicationID t;
     token := token t; acknowledged := acknowledged t; channelID := c;
     data := data t; guildID := guildID t; member := member t; user := user t |}.

Definition with_data (d : option Payload.Data) (t : CommandInteraction) : CommandInteraction :=
  {| _client := _client t; id := id t; applicationID := applicationID t;
     token := token t; acknowledged := acknowledged t; channelID := channelID t;
     data := d; guildID := guildID t; member := member t; user := user t |}.

Definition with_guildID (g : option string) (t : CommandInteraction) : CommandInteraction :=
  {| _client := _client t; id := id t; applicationID := applicationID t;
     token := token t; acknowledged := acknowledged t; channelID := channelID t;
     data := data t; guildID := g; member := member t; user := user t |}.

Definition with_member (m : option Member) (t : CommandInteraction) : CommandInteraction :=
  {| _client := _client t; id := id t; applicationID := applicationID t;
     token := token t; acknowledged := acknowledged t; channelID := channelID t;
     data := data t; guildID := guildID t; member := m; user := user t |}.

Definition with_user (u : option User) (t : CommandInteraction) : CommandInteraction :=
  {| _client := _client t; id := id t; applicationID := applicationID t;
     token := token t; acknowledged := acknowledged t; channelID := channelID t;
     data := data t; guildID := guildID t; member := member t; user := u |}.

(** Modelled from the spec: [Interaction.update] (same file as above):
    "state -> acknowledged". *)
Definition update : M value :=
  set_this (with_acknowledged (Some true)) ;; ret VUndefined.

(** ** The constructor *)

(** [Array.from(o)] on a block.  A plain object is not iterable, so it is
    read as an array-like of length ToLength(o.length); the property names of
    a block are snowflakes, [length] is not one of them, [o.length] is
    [undefined] and ToLength(undefined) is 0: the result is the empty array,
    however many entries the block has. *)
Definition Array_from (o : block) : list value := [].

(** [this.Array]: neither the class nor its bases give the instance a
    property of that name. *)
Definition this_Array (t : CommandInteraction) : value := VUndefined.

(** [client.guilds.get(info.guild_id)] *)
Definition guilds_get (client : Client) (guild_id : option string) : reference :=
  match guild_id with
  | Some g => match guilds client !! g with
              | Some guild => RGuild guild
              | None => RUndefined
              end
  | None => RUndefined
  end.

Module Constructor.

(** Lines 44-75.  [this.data] is [info.data] itself, so
    [this.data.resolved.users] is the block just read from [info]; the
    argument [new User(..)] is evaluated before the call of [set] is
    attempted. *)
Definition hydrate_users (res : Payload.Resolved) : M unit :=
  match Payload.users res with
  | Some users =>
      forEach (Array_from users) (fun user id =>
        t <- get_this ;;
        let entity := new_User user (_client t) in
        call (block_prop users "set") "this.data.resolved.users.set")
  | None => ret tt
  end.

Definition hydrate_members (res : Payload.Resolved) : M unit :=
  match Payload.members res with
  | Some members =>
      forEach (Array_from members) (fun member id =>
        t <- get_this ;;
        let entity := new_Member member (RClient (_client t)) None in
        call (block_prop members "set") "this.data.resolved.members.set")
  | None => ret tt
  end.

Definition hydrate_roles (res : Payload.Resolved) : M unit :=
  match Payload.roles res with
  | Some roles =>
      t <- get_this ;;
      from <- member_of (this_Array t) "from" ;;
      array <- call from "this.Array.from" ;;
      forEach array (fun role id =>
        t <- get_this ;;
        let entity := new_Role role (_client t) in
        call (block_prop roles "set") "this.data.resolved.roles.set")
  | None => ret tt
  end.

Definition hydrate_channels (res : Payload.Resolved) : M unit :=
  match Payload.channels res with
  | Some channels =>
      forEach (Array_from channels) (fun channel id =>
        t <- get_this ;;
        let entity := new_Channel channel (_client t) in
        call (block_prop channels "set") "this.data.resolved.channels.set")
  | None => ret tt
  end.

Definition hydrate_messages (res : Payload.Resolved) : M unit :=
  match Payload.messages res with
  | Some messages =>
      forEach (Array_from messages) (fun message id =>
        t <- get_this ;;
        let entity := new_Message message (_client t) in
        call (block_prop messages "set") "this.data.resolved.messages.set")
  | None => ret tt
  end.

Definition hydrate_resolved (info : Payload.Info) : M unit :=
  match Payload.resolved (Payload.data info) with
  | Some res =>
      hydrate_users res ;;
      hydrate_members res ;;
      hydrate_roles res ;;
      hydrate_channels res ;;
      hydrate_messages res
  | None => ret tt
  end.

(** Lines 86-88 *)
Definition hydrate_member (info : Payload.Info) (client : Client) : M unit :=
  match Payload.member info with
  | Some raw =>
      t <- get_this ;;
      set_this (with_member
        (Some (new_Member raw (guilds_get client (Payload.guild_id info))
                          (Some (_client t)))))
  | None => ret tt
  end.

Definition body (info : Payload.Info) (client : Client) : M unit :=
  (match Payload.channel_id info with
   | Some c => set_this (with_channelID (Some c))
   | None => ret tt
   end) ;;
  set_this (with_data (Some (Payload.data info))) ;;
  hydrate_resolved info ;;
  (match Payload.guild_id info with
   | Some g => set_this (with_guildID (Some g))
   | None => ret tt
   end) ;;
  hydrate_member info client ;;
  (match Payload.user info with
   | Some raw =>
       t <- get_this ;;
       set_this (with_user (Some (new_User raw (_client t))))
   | None => ret tt
   end).

End Constructor.

(** [new CommandInteraction(info, client)]: the instance, or what the
    constructor threw. *)
Definition new_CommandInteraction (info : Payload.Info) (client : Client)
  : error + CommandInteraction :=
  let w0 := {| this := Interaction_constructor info client; sent := [] |} in
  match Constructor.body info client w0 with
  | (inl e, _) => inl e
  | (inr _, w) => inr (this w)
  end.

(** ** The response methods *)

Definition already_acknowledged : string :=
  "You have already acknowledged this interaction.".

Definition cannot_acknowledge (method : string) : string :=
  method ++ " cannot be used to acknowledge an interaction, please use acknowledge, createMessage, or defer first.".

Definition no_content_or_embeds : string := "No content or embeds".

Definition acknowledge (flags : value) : M value :=
  t <- get_this ;;
  if acknowledged_is true t then
    throw (Error already_acknowledged)
  else
    await (createInteractionResponse (id t) (token t)
             DEFERRED_CHANNEL_MESSAGE_WITH_SOURCE
             (VObj [("flags", JS.or flags (VNum 0))])) ;;
    update.

Definition createFollowup (content : value) : M value :=
  t <- get_this ;;
  if acknowledged_is false t then
    throw (Error (cannot_acknowledge "createFollowup"))
  else
    let content :=
      if negb (JS.is_undefined content) then
        if negb (String.eqb (JS.typeof content) "object") || JS.is_null content then
          VObj [("content", JS.concat "" content)]
        else if negb (JS.is_undefined (JS.prop content "content"))
                && negb (String.eqb (JS.typeof (JS.prop content "content")) "string") then
          JS.assign_prop content "content" (JS.concat "" (JS.prop content "content"))
        else content
      else content in
    await (executeWebhook (applicationID t) (token t)
             (JS.Object_assign [("wait", VBool true)] content)).

Definition createMessage (content : value) : M value :=
  t <- get_this ;;
  if acknowledged_is true t then
    createFollowup content
  else
    content <-
      (if negb (JS.is_undefined content) then
         content <-
           (if negb (String.eqb (JS.typeof content) "object") || JS.is_null content then
              ret (VObj [("content", JS.concat "" content)])
            else if negb (JS.is_undefined (JS.prop content "content"))
                    && negb (String.eqb (JS.typeof (JS.prop content "content")) "string") then
              ret (JS.assign_prop content "content" (JS.concat "" (JS.prop content "content")))
            else if JS.is_undefined (JS.prop content "content")
                    && negb (JS.truthy (JS.prop content "embeds")) then
              throw (Error no_content_or_embeds)
            else ret content) ;;
         if negb (JS.is_undefined (JS.prop content "content"))
            || JS.truthy (JS.prop content "embeds")
            || JS.truthy (JS.prop content "allowedMentions") then
           ret (JS.assign_prop content "allowed_mentions"
                  (_formatAllowedMentions (_client t) (JS.prop content "allowedMentions")))
         else ret content
       else ret content) ;;
    await (createInteractionResponse (id t) (token t)
             CHANNEL_MESSAGE_WITH_SOURCE content) ;;
    update.

Definition defer (flags : value) : M value :=
  t <- get_this ;;
  if acknowledged_is true t then
    throw (Error already_acknowledged)
  else
    await (createInteractionResponse (id t) (token t)
             DEFERRED_CHANNEL_MESSAGE_WITH_SOURCE
             (VObj [("flags", JS.or flags (VNum 0))])) ;;
    update.

Definition deleteMessage (messageID : value) : M value :=
  t <- get_this ;;
  if acknowledged_is false t then
    throw (Error (cannot_acknowledge "deleteMessage"))
  else
    await (deleteWebhookMessage (applicationID t) (token t) messageID).

Definition deleteOriginalMessage : M value :=
  t <- get_this ;;
  if acknowledged_is false t then
    throw (Error (cannot_acknowledge "deleteOriginalMessage"))
  else
    await (deleteWebhookMessage (applicationID t) (token t) (VStr "@original")).

Definition editMessage (messageID content : value) : M value :=
  t <- get_this ;;
  if acknowledged_is false t then
    throw (Error (cannot_acknowledge "editMessage"))
  else
    let content :=
      if negb (JS.is_undefined content) then
        if negb (String.eqb (JS.typeof content) "object") || JS.is_null content then
          VObj [("content", JS.concat "" content)]
        else if negb (JS.is_undefined (JS.prop content "content"))
                && negb (String.eqb (JS.typeof (JS.prop content "content")) "string") then
          JS.assign_prop content "content" (JS.concat "" (JS.prop content "content"))
        else content
      else content in
    await (editWebhookMessage (applicationID t) (token t) messageID content).

Definition editOriginalMessage (content : value) : M value :=
  t <- get_this ;;
  if acknowledged_is false t then
    throw (Error (cannot_acknowledge "editOriginalMessage"))
  else
    let content :=
      if negb (JS.is_undefined content) then
        if negb (String.eqb (JS.typeof content) "object") || JS.is_null content then
          VObj [("content", JS.concat "" content)]
        else if negb (JS.is_undefined (JS.prop content "content"))
                && negb (String.eqb (JS.typeof (JS.prop content "content")) "string") then
          JS.assign_prop content "content" (JS.concat "" (JS.prop content "content"))
        else content
      else content in
    await (editWebhookMessage (applicationID t) (token t) (VStr "@original") content).

Definition getOriginalMessage : M value :=
  t <- get_this ;;
  if acknowledged_is false t then
    throw (Error (cannot_acknowledge "getOriginalMessage"))
  else
    await (getWebhookMessage (applicationID t) (token t) (VStr "@original")).

(** ** Sequences of calls *)

Inductive invocation : Type :=
| Acknowledge (flags : value)
| CreateFollowup (content : value)
| CreateMessage (content : value)
| Defer (flags : value)
| DeleteMessage (messageID : value)
| DeleteOriginalMessage
| EditMessage (messageID content : value)
| EditOriginalMessage (content : value)
| GetOriginalMessage.

Definition invoke (c : invocation) : M value :=
  match c with
  | Acknowledge flags => acknowledge flags
  | CreateFollowup content => createFollowup content
  | CreateMessage content => createMessage content
  | Defer flags => defer flags
  | DeleteMessage messageID => deleteMessage messageID
  | DeleteOriginalMessage => deleteOriginalMessage
  | EditMessage messageID content => editMessage messageID content
  | EditOriginalMessage content => editOriginalMessage content
  | GetOriginalMessage => getOriginalMessage
  end.

(** One awaited call: what was invoked, the state before, the settled
    promise, and the state after. *)
Record step : Type := {
  invoked : invocation;
  pre : world;
  outcome : error + value;
  post : world
}.

Definition step_of (c : invocation) (w : world) : step :=
  {| invoked := c; pre := w; outcome := fst (invoke c w); post := snd (invoke c w) |}.

(** Each call is awaited before the next one starts. *)
Fixpoint run (calls : list invocation) (w : world) : list step :=
  match calls with
  | [] => []
  | c :: rest => step_of c w :: run rest (post (step_of c w))
  end.

(** The requests a call handed to the client *)
Definition issued (s : step) : list request :=
  skipn (List.length (sent (pre s))) (sent (post s)).

(** A call succeeded as the initial response when its promise resolved and
    it sent a [createInteractionResponse]. *)
Definition succeeded_as_initial (s : step) : bool :=
  match outcome s with
  | inr _ => existsb is_initial_response (issued s)
  | inl _ => false
  end.

(** A call made the transition when it found the instance not acknowledged
    and left it acknowledged. *)
Definition made_transition (s : step) : bool :=
  negb (acknowledged_is true (this (pre s))) && acknowledged_is true (this (post s)).

(** The spec's names for the errors the class raises itself *)
Definition AlreadyAcknowledgedError (e : error) : Prop :=
  e = Error already_acknowledged.

Definition NotYetAcknowledgedError (e : error) : Prop :=
  exists method, e = Error (cannot_acknowledge method).

Definition EmptyContentError (e : error) : Prop :=
  e = Error no_content_or_embeds.

Definition local_precondition_violation (e : error) : Prop :=
  AlreadyAcknowledgedError e \/ NotYetAcknowledgedError e \/ EmptyContentError e.

(** A call that fails on the spot: it throws an error of the given kind,
    hands no request to the client and leaves the instance as it was. *)
Definition fails_without_request (m : M value) (w : world) (kind : error -> Prop) : Prop :=
  exists e, kind e /\ fst (m w) = inl e /\ sent (snd (m w)) = sent w
            /\ this (snd (m w)) = this w.

(** ** Concrete payloads, clients and instances *)

Module Fixture.

Definition client : Client :=
  {| guilds := ∅;
     _formatAllowedMentions := fun _ => VObj [("parse", VArr [] [])];
     answer := fun _ _ => inr (VObj [("id", VStr "900")]) |}.

Definition info : Payload.Info :=
  {| Payload.id := "100";
     Payload.token := "tok";
     Payload.application_id := "200";
     Payload.channel_id := Some "300";
     Payload.data := {| Payload.command := VObj [("name", VStr "ping")];
                        Payload.resolved := None |};
     Payload.guild_id := Some "400";
     Payload.member := Some (VObj [("nick", VStr "n")]);
     Payload.user := None |}.

(** A fresh instance: what the constructor returns for [info], before any
    response *)
Definition fresh : world :=
  {| this := match new_CommandInteraction info client with
             | inr t => t
             | inl _ => Interaction_constructor info client
             end;
     sent := [] |}.

(** The same instance with the acknowledgment field in each other state *)
Definition unset : world :=
  {| this := with_acknowledged None (this fresh); sent := [] |}.

Definition acked : world :=
  {| this := with_acknowledged (Some true) (this fresh); sent := [] |}.

Definition only_users (b : block) : Payload.Resolved :=
  {| Payload.users := Some b; Payload.members := None; Payload.roles := None;
     Payload.channels := None; Payload.messages := None |}.

Definition only_roles (b : block) : Payload.Resolved :=
  {| Payload.users := None; Payload.members := None; Payload.roles := Some b;
     Payload.channels := None; Payload.messages := None |}.

Definition with_resolved (r : Payload.Resolved) : Payload.Info :=
  {| Payload.id := "100";
     Payload.token := "tok";
     Payload.application_id := "200";
     Payload.channel_id := Some "300";
     Payload.data := {| Payload.command := VObj [("name", VStr "ping")];
                        Payload.resolved := Some r |};
     Payload.guild_id := Some "400";
     Payload.member := Some (VObj [("nick", VStr "n")]);
     Payload.user := None |}.

(** A users block with one entry that has no field at all *)
Definition empty_user : block :=
  {| entries := [("1", VObj [])]; entries_keyed_by_id := eq_refl |}.

(** A roles block with one complete entry *)
Definition one_role : block :=
  {| entries := [("7", VObj [("id", VStr "7"); ("name", VStr "mod")])];
     entries_keyed_by_id := eq_refl |}.

End Fixture.

(** ** The statements of section 4 in the terms of the embedding *)

(** The spec's content normalization, in its words: a bare text value is
    coerced into a content object with a single [content] field; a content
    object with a non-text [content] value is stringified. *)
Definition bare (v : value) : bool :=
  match v with
  | VUndefined | VObj _ | VArr _ _ => false
  | VNull | VBool _ | VNum _ | VStr _ => true
  end.

Definition content_object (v : value) : bool :=
  match v with
  | VObj _ | VArr _ _ => true
  | _ => false
  end.

Definition non_text (v : value) : bool :=
  match v with
  | VUndefined | VStr _ => false
  | _ => true
  end.

Definition spec_normalize (v : value) : value :=
  if bare v then VObj [("content", VStr (JS.ToString v))]
  else if content_object v && non_text (JS.prop v "content") then
    JS.assign_prop v "content" (VStr (JS.ToString (JS.prop v "content")))
  else v.

(** The body of an initial message response: the content with
    [allowed_mentions] filled in by the client *)
Definition with_allowed_mentions (client : Client) (content : value) : value :=
  JS.assign_prop content "allowed_mentions"
    (_formatAllowedMentions client (JS.prop content "allowedMentions")).

(** "An object with neither text nor embeds" *)
Definition neither_text_nor_embeds (content : value) : bool :=
  content_object content
  && JS.is_undefined (JS.prop content "content")
  && negb (JS.truthy (JS.prop content "embeds")).


(** The five kinds of a resolved block *)
Inductive EntityKind : Type := KUsers | KMembers | KRoles | KChannels | KMessages.

Definition kind_block (k : EntityKind) (r : Payload.Resolved) : option block :=
  match k with
  | KUsers => Payload.users r
  | KMembers => Payload.members r
  | KRoles => Payload.roles r
  | KChannels => Payload.channels r
  | KMessages => Payload.messages r
  end.

(** [info.data.resolved.kind] and [this.data.resolved.kind] *)
Definition payload_block (k : EntityKind) (info : Payload.Info) : option block :=
  match Payload.resolved (Payload.data info) with
  | Some r => kind_block k r
  | None => None
  end.

Definition instance_block (k : EntityKind) (t : CommandInteraction) : option block :=
  match data t with
  | Some d => match Payload.resolved d with
              | Some r => kind_block k r
              | None => None
              end
  | None => None
  end.

Definition has_roles (info : Payload.Info) : bool :=
  match payload_block KRoles info with Some _ => true | None => false end.


(** Section 4.1 on exhaustiveness, as far as it shows in the type of the
    constructor: the construction goes on. *)
Definition hydrates (info : Payload.Info) (client : Client) : Prop :=
  exists t, new_CommandInteraction info client = inr t.

(** The calls that can give the initial response, and an instance set back
    to the state a fresh one is in *)
Definition initial_call (c : invocation) : bool :=
  match c with
  | Acknowledge _ | Defer _ | CreateMessage _ => true
  | _ => false
  end.

Definition as_unacknowledged (w : world) : world :=
  {| this := with_acknowledged (Some false) (this w); sent := sent w |}.

(** The operation table of section 4.2.  [refused] is the failure column:
    the error a call fails with before anything is sent.  [outbound] is the
    effect column: the one request a call that is not refused hands to the
    client, built from the normalized content. *)
Definition refused (c : invocation) (t : CommandInteraction) : option error :=
  match c with
  | Acknowledge _ | Defer _ =>
      if acknowledged_is true t then Some (Error already_acknowledged) else None
  | CreateMessage content =>
      if acknowledged_is true t then None
      else if neither_text_nor_embeds content then Some (Error no_content_or_embeds)
      else None
  | CreateFollowup _ =>
      if acknowledged_is false t then Some (Error (cannot_acknowledge "createFollowup")) else None
  | DeleteMessage _ =>
      if acknowledged_is false t then Some (Error (cannot_acknowledge "deleteMessage")) else None
  | DeleteOriginalMessage =>
      if acknowledged_is false t then Some (Error (cannot_acknowledge "deleteOriginalMessage")) else None
  | EditMessage _ _ =>
      if acknowledged_is false t then Some (Error (cannot_acknowledge "editMessage")) else None
  | EditOriginalMessage _ =>
      if acknowledged_is false t then Some (Error (cannot_acknowledge "editOriginalMessage")) else None
  | GetOriginalMessage =>
      if acknowledged_is false t then Some (Error (cannot_acknowledge "getOriginalMessage")) else None
  end.

Definition followup_request (t : CommandInteraction) (content : value) : request :=
  executeWebhook (applicationID t) (token t)
    (JS.Object_assign [("wait", VBool true)] (spec_normalize content)).

Definition outbound (c : invocation) (t : CommandInteraction) : request :=
  match c with
  | Acknowledge flags | Defer flags =>
      createInteractionResponse (id t) (token t) DEFERRED_CHANNEL_MESSAGE_WITH_SOURCE
        (VObj [("flags", JS.or flags (VNum 0))])
  | CreateMessage content =>
      if acknowledged_is true t then followup_request t content
      else createInteractionResponse (id t) (token t) CHANNEL_MESSAGE_WITH_SOURCE
             (if JS.is_undefined content then content
              else with_allowed_mentions (_client t) (spec_normalize content))
  | CreateFollowup content => followup_request t content
  | DeleteMessage messageID =>
      deleteWebhookMessage (applicationID t) (token t) messageID
  | DeleteOriginalMessage =>
      deleteWebhookMessage (applicationID t) (token t) (VStr "@original")
  | EditMessage messageID content =>
      editWebhookMessage (applicationID t) (token t) messageID (spec_normalize content)
  | EditOriginalMessage content =>
      editWebhookMessage (applicationID t) (token t) (VStr "@original") (spec_normalize content)
  | GetOriginalMessage =>
      getWebhookMessage (applicationID t) (token t) (VStr "@original")
  end.

(** What the table makes of a call: refused, or sent and settled by the
    platform's answer; a resolved initial response acknowledges the
    instance and resolves to [undefined]. *)
Definition table (c : invocation) (w : world) : (error + value) * world :=
  match refused c (this w) with
  | Some e => (inl e, w)
  | None =>
      let r := outbound c (this w) in
      match answer (_client (this w)) (sent w) r with
      | inl rej => (inl (Rejected rej), {| this := this w; sent := sent w ++ [r] |})
      | inr v =>
          if is_initial_response r then
            (inr VUndefined,
             {| this := with_acknowledged (Some true) (this w); sent := sent w ++ [r] |})
          else (inr v, {| this := this w; sent := sent w ++ [r] |})
      end
  end.

(** ** What a request carries, and clients that reject *)

(** The token a request is made with, and the ID it is addressed to: the
    interaction's for an initial response, the application's for a webhook *)
Definition request_token (r : request) : string :=
  match r with
  | createInteractionResponse _ token _ _ => token
  | executeWebhook _ token _ => token
  | deleteWebhookMessage _ token _ => token
  | editWebhookMessage _ token _ _ => token
  | getWebhookMessage _ token _ => token
  end.

Definition request_target (r : request) : string :=
  match r with
  | createInteractionResponse interactionID _ _ _ => interactionID
  | executeWebhook applicationID _ _ => applicationID
  | deleteWebhookMessage applicationID _ _ => applicationID
  | editWebhookMessage applicationID _ _ _ => applicationID
  | getWebhookMessage applicationID _ _ => applicationID
  end.

(** The body of a follow-up, the content of an edit or the data of an
    initial response *)
Definition request_body (r : request) : value :=
  match r with
  | createInteractionResponse _ _ _ data => data
  | executeWebhook _ _ options => options
  | editWebhookMessage _ _ _ options => options
  | deleteWebhookMessage _ _ _ => VUndefined
  | getWebhookMessage _ _ _ => VUndefined
  end.

(** The own property names of an object *)
Definition keys (props : list (string * value)) : list string := List.map fst props.

Module Scenario.

(** A platform that rejects every request *)
Definition rejecting : Client :=
  {| guilds := ∅;
     _formatAllowedMentions := fun _ => VObj [("parse", VArr [] [])];
     answer := fun _ _ => inl (DiscordRESTError 10062 "Unknown interaction") |}.

(** A platform that rejects the first request it gets and resolves the
    later ones *)
Definition flaky : Client :=
  {| guilds := ∅;
     _formatAllowedMentions := fun _ => VObj [("parse", VArr [] [])];
     answer := fun sent _ =>
                 match sent with
                 | [] => inl (DiscordHTTPError 502 "Bad Gateway")
                 | _ => inr (VObj [("id", VStr "901")])
                 end |}.

(** A client whose registry holds the guild of the payloads of [Fixture] *)
Definition with_guild : Client :=
  {| guilds := {[ "400" := {| guild_id_of := "400" |} ]};
     _formatAllowedMentions := fun _ => VObj [("parse", VArr [] [])];
     answer := fun _ _ => inr (VObj [("id", VStr "902")]) |}.

(** The instance the constructor returns for the payload of [Fixture], bound
    to a given client *)
Definition fresh_on (c : Client) : world :=
  {| this := match new_CommandInteraction Fixture.info c with
             | inr t => t
             | inl _ => Interaction_constructor Fixture.info c
             end;
     sent := [] |}.

End Scenario.

(** ** The class SKU *)

Module SKU.

(** An instance, with the properties its constructor sets; [id] is the one
    the base class keeps. *)
Record SKU : Type := {
  id : value;
  applicationID : value;
  flags : value;
  name : value;
  slug : value;
  type : value
}.

(** The calls of client methods the class makes, with their arguments *)
Inductive client_call : Type :=
| Client_createTestEntitlement (options : value)
| Client_getEntitlements (options : value)
| Client_getSKUSubscription (skuID subscriptionID : value)
| Client_getSKUSubscriptions (skuID options : value).

(** A parameter with the default value [{}]: the default stands in for
    [undefined] only. *)
Definition default_object (options : value) : value :=
  if JS.is_undefined options then VObj [] else options.

Definition createTestEntitlement (this : SKU) (ownerID ownerType : value) : client_call :=
  Client_createTestEntitlement
    (VObj [("ownerID", ownerID); ("ownerType", ownerType); ("skuID", id this)]).

(** The literal [{skuIDs: [this.id], ...options}]: the own properties of
    [options] are written after [skuIDs]. *)
Definition getEntitlements (this : SKU) (options : value) : client_call :=
  let options := default_object options in
  Client_getEntitlements
    (JS.Object_assign [("skuIDs", VArr [id this] [])] options).

Definition getSKUSubscription (this : SKU) (subscriptionID : value) : client_call :=
  Client_getSKUSubscription (id this) subscriptionID.

Definition getSKUSubscriptions (this : SKU) (options : value) : client_call :=
  let options := default_object options in
  Client_getSKUSubscriptions (id this) options.

End SKU.

(** ** The class Subscription *)

Module Subscription.

(** A timestamp property: [null], or [Date.parse] of a value, kept as the
    value it is the parse of. *)
Inductive timestamp : Type :=
| Null
| Date_parse (v : value).

(** An instance, with the properties the constructor assigns after the base
    class has run; [canceledAt] may stay unassigned. *)
Record Subscription : Type := {
  country : value;
  renewalSKUIDs : value;
  entitlementIDs : value;
  skuIDs : value;
  status : value;
  userID : value;
  currentPeriodEnd : timestamp;
  currentPeriodStart : timestamp;
  canceledAt : option timestamp
}.

(** The constructor, on a payload object given by its own properties *)
Definition constructor (data : list (string * value)) : Subscription :=
  let data := VObj data in
  {| country := JS.prop data "country";
     renewalSKUIDs := JS.prop data "renewal_sku_ids";
     entitlementIDs := JS.prop data "entitlement_ids";
     skuIDs := JS.prop data "sku_ids";
     status := JS.prop data "status";
     userID := JS.prop data "user_id";
     currentPeriodEnd :=
       if JS.truthy (JS.prop data "current_period_end")
       then Date_parse (JS.prop data "current_period_end") else Null;
     currentPeriodStart :=
       if JS.truthy (JS.prop data "current_period_start")
       then Date_parse (JS.prop data "current_period_start") else Null;
     canceledAt :=
       if negb (JS.is_undefined (JS.prop data "canceled_at"))
       then Some (if JS.truthy (JS.prop data "canceled_at")
                  then Date_parse (JS.prop data "canceled_at") else Null)
       else None |}.

End Subscription.

(** ** Proof support *)

Ltac run_method :=
  cbv [invoke acknowledge defer createFollowup createMessage deleteMessage
       deleteOriginalMessage editMessage editOriginalMessage getOriginalMessage
       update await bind ret throw get_this set_this acknowledged_is JS.concat
       String.append].

(** *** The embedding at work *)

Example string_forms :
  JS.ToString (VNum (-5)) = "-5"
  /\ JS.ToString (VBool false) = "false"
  /\ JS.ToString VNull = "null"
  /\ JS.ToString (VArr [VNum 1; VNull; VArr [VStr "a"; VUndefined] []; VObj []] [])
     = "1,,a,,[object Object]".
Proof. repeat split; reflexivity. Qed.

Example flags_default :
  JS.or VUndefined (VNum 0) = VNum 0
  /\ JS.or (VNum 0) (VNum 0) = VNum 0
  /\ JS.or (VNum 64) (VNum 0) = VNum 64.
Proof. repeat split; reflexivity. Qed.

Example assign_keeps_place :
  JS.Object_assign [("wait", VBool true)]
    (VObj [("content", VStr "a"); ("wait", VBool false)])
  = VObj [("wait", VBool false); ("content", VStr "a")].
Proof. reflexivity. Qed.

(** Section 8: [acknowledge(64)], then [createFollowup({content: "hi"})]. *)
Example defer_then_followup :
  List.map (fun s => (outcome s, acknowledged (this (post s)), issued s))
    (run [Acknowledge (VNum 64); CreateFollowup (VObj [("content", VStr "hi")])]
         Fixture.fresh)
  = [(inr VUndefined, Some true,
      [createInteractionResponse "100" "tok" DEFERRED_CHANNEL_MESSAGE_WITH_SOURCE
         (VObj [("flags", VNum 64)])]);
     (inr (VObj [("id", VStr "900")]), Some true,
      [executeWebhook "200" "tok"
         (VObj [("wait", VBool true); ("content", VStr "hi")])])].
Proof. reflexivity. Qed.

Lemma skipn_own_length {A} (l : list A) : skipn (List.length l) l = [].
Proof. induction l; simpl; auto. Qed.

Lemma skipn_past {A} (l r : list A) : skipn (List.length l) (l ++ r) = r.
Proof. induction l; simpl; auto. Qed.

Lemma acknowledged_is_true t :
  acknowledged_is true t = true <-> acknowledged t = Some true.
Proof.
  unfold acknowledged_is. destruct (acknowledged t) as [[|]|]; simpl; split;
    congruence.
Qed.

Lemma acknowledged_is_false t :
  acknowledged_is false t = true <-> acknowledged t = Some false.
Proof.
  unfold acknowledged_is. destruct (acknowledged t) as [[|]|]; simpl; split;
    congruence.
Qed.

Lemma assoc_set_same k x l : JS.assoc k (JS.assoc_set k x l) = Some x.
Proof.
  induction l as [|[k' v'] l IH]; simpl.
  - now rewrite String.eqb_refl.
  - destruct (String.eqb k k') eqn:E; simpl.
    + now rewrite String.eqb_refl.
    + now rewrite E.
Qed.

(** ** The methods refine the operation table *)

(** The normalization written out in [createFollowup], [editMessage] and
    [editOriginalMessage] is the spec's. *)
Lemma inline_normalize (v : value) :
  (if negb (JS.is_undefined v) then
     if negb (String.eqb (JS.typeof v) "object") || JS.is_null v then
       VObj [("content", VStr (JS.ToString v))]
     else if negb (JS.is_undefined (JS.prop v "content"))
             && negb (String.eqb (JS.typeof (JS.prop v "content")) "string") then
       JS.assign_prop v "content" (VStr (JS.ToString (JS.prop v "content")))
     else v
   else v) = spec_normalize v.
Proof.
  unfold spec_normalize.
  destruct v; try reflexivity; cbn;
    destruct (default VUndefined (JS.assoc "content" _)); reflexivity.
Qed.

Ltac settle :=
  repeat match goal with
         | |- context [answer ?c ?s ?r] => destruct (answer c s r)
         end; try reflexivity.

Ltac object_cases l :=
  let Ec := fresh "Ec" in
  let Ee := fresh "Ee" in
  destruct (JS.assoc "content" l) as [[| | ? | ? | ? | ? ? | ?]|] eqn:Ec;
  destruct (JS.truthy (default VUndefined (JS.assoc "embeds" l))) eqn:Ee;
  cbn -[JS.assoc JS.assoc_set];
  rewrite ?Ec, ?assoc_set_same, ?Ee;
  cbn -[JS.assoc JS.assoc_set];
  rewrite ?Ec, ?assoc_set_same, ?Ee;
  cbn -[JS.assoc JS.assoc_set];
  settle.

Lemma createMessage_table (content : value) (t : CommandInteraction) (s : list request) :
  acknowledged_is true t = false ->
  createMessage content {| this := t; sent := s |}
  = table (CreateMessage content) {| this := t; sent := s |}.
Proof.
  intros Hack. unfold table. cbn [refused outbound this sent]. rewrite Hack.
  run_method. cbn [this sent]. unfold acknowledged_is in Hack. rewrite Hack.
  unfold with_allowed_mentions, neither_text_nor_embeds, spec_normalize.
  destruct content as [| | b | n | str | elems named | props];
    [cbn; settle .. | cbn -[JS.assoc JS.assoc_set] | cbn -[JS.assoc JS.assoc_set] ].
  - object_cases named.
  - object_cases props.
Qed.

(** Every method does what the table of section 4.2 says, with the
    request built from the normalized content. *)
Lemma invoke_table (c : invocation) (w : world) : invoke c w = table c w.
Proof.
  destruct w as [t s].
  destruct c.
  all: try (unfold table; cbn [refused outbound this sent]; run_method; cbn [this sent];
         rewrite ?inline_normalize; unfold followup_request;
         destruct (acknowledged t) as [[|]|]; cbn -[JS.Object_assign spec_normalize];
         settle; fail).
  destruct (acknowledged_is true t) eqn:Hack.
  - unfold table; cbn [refused outbound this sent]. rewrite Hack.
    apply acknowledged_is_true in Hack.
    run_method; cbn [this sent]. rewrite Hack.
    cbn -[JS.Object_assign spec_normalize]. rewrite Hack.
    cbn -[JS.Object_assign spec_normalize].
    rewrite ?inline_normalize. unfold followup_request. settle.
  - now apply createMessage_table.
Qed.

(** ** acknowledge and defer *)

(** C10: [acknowledge] and [defer] are the same computation: for every
    flags argument and every state they have the same guard, send the same
    request and leave the same state.  Not yet acknowledged, the request is
    the deferred response with [flags || 0]; already acknowledged, both throw
    and send nothing. *)
Theorem defer_is_acknowledge :
  forall (flags : value) (w : world),
    defer flags w = acknowledge flags w
    /\ (if acknowledged_is true (this w)
        then acknowledge flags w = (inl (Error already_acknowledged), w)
        else sent (snd (acknowledge flags w)) =
               (sent w ++ [createInteractionResponse (id (this w)) (token (this w))
                             DEFERRED_CHANNEL_MESSAGE_WITH_SOURCE
                             (VObj [("flags", JS.or flags (VNum 0))])])%list)
    /\ JS.or VUndefined (VNum 0) = VNum 0.
Proof.
  intros flags w. split; [reflexivity|]. split; [|reflexivity].
  run_method. destruct (acknowledged (this w)) as [[|]|]; simpl; auto;
    destruct (answer _ _ _); reflexivity.
Qed.

(** ** One initial response *)

Lemma acknowledged_stays (c : invocation) (w : world) :
  acknowledged_is true (this w) = true ->
  acknowledged_is true (this (snd (invoke c w))) = true.
Proof.
  intros H. rewrite invoke_table. unfold table.
  destruct (refused c (this w)); [exact H|].
  destruct (answer _ _ _); [exact H|].
  destruct (is_initial_response _); [reflexivity | exact H].
Qed.

Lemma outbound_after_acknowledgment (c : invocation) (t : CommandInteraction) :
  acknowledged_is true t = true ->
  refused c t = None ->
  is_initial_response (outbound c t) = false.
Proof.
  intros H. destruct c; cbn [refused outbound]; rewrite ?H; try discriminate;
    reflexivity.
Qed.

Lemma issued_by (c : invocation) (w : world) :
  skipn (List.length (sent w)) (sent (snd (invoke c w))) =
  match refused c (this w) with
  | Some _ => []
  | None => [outbound c (this w)]
  end.
Proof.
  rewrite invoke_table. unfold table.
  destruct (refused c (this w)); cbn [snd sent].
  - apply skipn_own_length.
  - destruct (answer _ _ _); [|destruct (is_initial_response _)]; cbn [snd sent];
      apply skipn_past.
Qed.

Lemma no_initial_after_acknowledgment (c : invocation) (w : world) :
  acknowledged_is true (this w) = true ->
  succeeded_as_initial (step_of c w) = false.
Proof.
  intros H. unfold succeeded_as_initial, issued. cbn [step_of outcome pre post].
  destruct (fst (invoke c w)); [reflexivity|].
  rewrite issued_by.
  destruct (refused c (this w)) eqn:R; [reflexivity|].
  cbn. now rewrite outbound_after_acknowledgment.
Qed.

Lemma initial_acknowledges (c : invocation) (w : world) :
  succeeded_as_initial (step_of c w) = true ->
  acknowledged_is true (this (post (step_of c w))) = true.
Proof.
  unfold succeeded_as_initial, issued. cbn [step_of outcome pre post].
  rewrite issued_by. rewrite invoke_table. unfold table.
  destruct (refused c (this w)); cbn [fst snd]; [discriminate|].
  destruct (answer _ _ _); cbn [fst snd]; [discriminate|].
  destruct (is_initial_response _) eqn:I; cbn [fst snd existsb].
  - reflexivity.
  - rewrite I. discriminate.
Qed.

(** A property of steps that needs an unacknowledged instance and leaves an
    acknowledged one holds of at most one step of a run. *)
Lemma at_most_once (P : step -> bool) :
  (forall c w, acknowledged_is true (this w) = true -> P (step_of c w) = false) ->
  (forall c w, P (step_of c w) = true ->
               acknowledged_is true (this (post (step_of c w))) = true) ->
  forall calls w,
    (List.length (List.filter P (run calls w)) <= 1)%nat
    /\ (acknowledged_is true (this w) = true -> List.filter P (run calls w) = []).
Proof.
  intros Hafter Hmakes calls.
  induction calls as [|c rest IH]; intros w; cbn [run List.filter].
  - split; [cbn; lia | reflexivity].
  - destruct (IH (post (step_of c w))) as [Hle Hnil].
    destruct (P (step_of c w)) eqn:HP.
    + split.
      * cbn [List.length]. rewrite Hnil; [cbn; lia|].
        exact (Hmakes c w HP).
      * intros Hack. rewrite (Hafter c w Hack) in HP. discriminate.
    + split; [exact Hle|].
      intros Hack. apply Hnil. cbn [step_of post]. now apply acknowledged_stays.
Qed.

Lemma transition_needs_initial_call (c : invocation) (w : world) :
  made_transition (step_of c w) = true -> initial_call c = true.
Proof.
  unfold made_transition. cbn [step_of pre post].
  rewrite invoke_table. unfold table.
  destruct (acknowledged_is true (this w)) eqn:H; [discriminate|]. cbn [negb andb].
  destruct (refused c (this w)); cbn [snd this]; [congruence|].
  destruct (answer _ _ _); cbn [snd this]; [congruence|].
  destruct (is_initial_response (outbound c (this w))) eqn:I; cbn [snd this];
    [|congruence].
  intros _. destruct c; cbn [outbound] in I; try reflexivity; discriminate.
Qed.

Lemma already_acknowledged_fails (flags : value) (w : world) :
  acknowledged (this w) = Some true ->
  fails_without_request (acknowledge flags) w AlreadyAcknowledgedError.
Proof.
  intros H. exists (Error already_acknowledged). unfold AlreadyAcknowledgedError.
  run_method. rewrite H. cbn. auto.
Qed.

(** C1: at most one initial response.  Once [acknowledged] is [true],
    [acknowledge] and [defer] throw the already-acknowledged error and send
    nothing, and [createMessage] is [createFollowup]: its only request is the
    follow-up webhook.  In every sequence of awaited calls, from every state
    and whatever the platform answers, at most one call succeeds as the
    initial response and at most one call moves the instance from not
    acknowledged to acknowledged; a call that does is [acknowledge], [defer]
    or [createMessage]. *)
Theorem one_initial_response :
  (forall flags w,
      acknowledged (this w) = Some true ->
      fails_without_request (acknowledge flags) w AlreadyAcknowledgedError
      /\ fails_without_request (defer flags) w AlreadyAcknowledgedError)
  /\ (forall content w,
      acknowledged (this w) = Some true ->
      createMessage content w = createFollowup content w
      /\ issued (step_of (CreateMessage content) w) = [followup_request (this w) content])
  /\ (forall calls w,
      (List.length (List.filter succeeded_as_initial (run calls w)) <= 1)%nat
      /\ (List.length (List.filter made_transition (run calls w)) <= 1)%nat)
  /\ (forall c w, made_transition (step_of c w) = true -> initial_call c = true).
Proof.
  repeat split.
  - now apply already_acknowledged_fails.
  - now apply (already_acknowledged_fails flags w).
  - unfold createMessage at 1. unfold bind at 1, get_this at 1.
    apply acknowledged_is_true in H. rewrite H. reflexivity.
  - unfold issued. cbn [step_of pre post]. rewrite issued_by.
    apply acknowledged_is_true in H. cbn [refused outbound]. now rewrite H.
  - apply (at_most_once succeeded_as_initial).
    + apply no_initial_after_acknowledgment.
    + apply initial_acknowledges.
  - apply (at_most_once made_transition).
    + intros c w' H. unfold made_transition. cbn [step_of pre]. now rewrite H.
    + intros c w' H. unfold made_transition in H.
      now apply andb_true_iff in H.
  - apply transition_needs_initial_call.
Qed.

Lemma one_initial_response_witness :
  acknowledged (this Fixture.acked) = Some true
  /\ fails_without_request (acknowledge (VNum 64)) Fixture.acked AlreadyAcknowledgedError
  /\ createMessage (VStr "hi") Fixture.acked = createFollowup (VStr "hi") Fixture.acked
  /\ (List.length (List.filter succeeded_as_initial
        (run [Acknowledge (VNum 64); CreateMessage (VStr "hi"); Defer VUndefined]
             Fixture.fresh)) <= 1)%nat
  /\ List.map succeeded_as_initial
        (run [Acknowledge (VNum 64); CreateMessage (VStr "hi"); Defer VUndefined]
             Fixture.fresh) = [true; false; false].
Proof.
  destruct one_initial_response as (Hguard & Hredirect & Hcount & _).
  split; [reflexivity|].
  split; [apply (Hguard (VNum 64) Fixture.acked); reflexivity|].
  split; [apply (Hredirect (VStr "hi") Fixture.acked); reflexivity|].
  split; [apply (Hcount _ Fixture.fresh)|].
  vm_compute. reflexivity.
Defined.

(** ** Guards of the follow-up methods *)

Lemma refused_fails (c : invocation) (w : world) (e : error) :
  refused c (this w) = Some e ->
  fst (invoke c w) = inl e /\ snd (invoke c w) = w.
Proof.
  intros H. rewrite invoke_table. unfold table. rewrite H. auto.
Qed.

Lemma constructed_unacknowledged (info : Payload.Info) (client : Client) (t : CommandInteraction) :
  new_CommandInteraction info client = inr t -> acknowledged t = Some false.
Proof.
  unfold new_CommandInteraction, Constructor.body, Constructor.hydrate_resolved,
    Constructor.hydrate_users, Constructor.hydrate_members, Constructor.hydrate_roles,
    Constructor.hydrate_channels, Constructor.hydrate_messages,
    Constructor.hydrate_member, Array_from, forEach, this_Array.
  destruct (Payload.channel_id info), (Payload.guild_id info),
    (Payload.member info), (Payload.user info),
    (Payload.resolved (Payload.data info)) as [[[?|] [?|] [?|] [?|] [?|]]|];
    cbn; intros H; inversion H; reflexivity.
Qed.

(** C2: on an unacknowledged instance ([acknowledged] is [false], the
    state a fresh instance is in), [createFollowup], [editMessage],
    [deleteMessage] and [getOriginalMessage] each throw the
    not-yet-acknowledged error, hand no request to the client and leave the
    instance as it was. *)
Theorem followup_needs_acknowledgment :
  forall (w : world) (content messageID : value),
    acknowledged (this w) = Some false ->
    fails_without_request (createFollowup content) w NotYetAcknowledgedError
    /\ fails_without_request (editMessage messageID content) w NotYetAcknowledgedError
    /\ fails_without_request (deleteMessage messageID) w NotYetAcknowledgedError
    /\ fails_without_request getOriginalMessage w NotYetAcknowledgedError.
Proof.
  intros w content messageID H.
  apply acknowledged_is_false in H.
  repeat split.
  - exists (Error (cannot_acknowledge "createFollowup")).
    split; [now exists "createFollowup"|].
    destruct (refused_fails (CreateFollowup content) w _ ltac:(cbn; rewrite H; reflexivity)) as [H1 H2].
    cbn [invoke] in H1, H2. rewrite H1, H2. auto.
  - exists (Error (cannot_acknowledge "editMessage")).
    split; [now exists "editMessage"|].
    destruct (refused_fails (EditMessage messageID content) w _ ltac:(cbn; rewrite H; reflexivity)) as [H1 H2].
    cbn [invoke] in H1, H2. rewrite H1, H2. auto.
  - exists (Error (cannot_acknowledge "deleteMessage")).
    split; [now exists "deleteMessage"|].
    destruct (refused_fails (DeleteMessage messageID) w _ ltac:(cbn; rewrite H; reflexivity)) as [H1 H2].
    cbn [invoke] in H1, H2. rewrite H1, H2. auto.
  - exists (Error (cannot_acknowledge "getOriginalMessage")).
    split; [now exists "getOriginalMessage"|].
    destruct (refused_fails GetOriginalMessage w _ ltac:(cbn; rewrite H; reflexivity)) as [H1 H2].
    cbn [invoke] in H1, H2. rewrite H1, H2. auto.
Qed.

Lemma followup_needs_acknowledgment_witness :
  new_CommandInteraction Fixture.info Fixture.client = inr (this Fixture.fresh)
  /\ acknowledged (this Fixture.fresh) = Some false
  /\ fails_without_request (deleteMessage (VStr "@original")) Fixture.fresh
       NotYetAcknowledgedError
  /\ deleteMessage (VStr "@original") Fixture.fresh =
       (inl (Error "deleteMessage cannot be used to acknowledge an interaction, please use acknowledge, createMessage, or defer first."),
        Fixture.fresh).
Proof.
  split; [reflexivity|]. split; [reflexivity|].
  split; [|reflexivity].
  apply (followup_needs_acknowledgment Fixture.fresh VUndefined (VStr "@original")).
  reflexivity.
Defined.

(** ** Local failures never reach the network *)

(** C8: whenever a call fails with one of the three local precondition
    errors, it has handed no request to the client and the acknowledgment
    state is what it was; indeed the whole state is. *)
Theorem local_failure_is_atomic :
  forall (c : invocation) (w : world) (e : error),
    fst (invoke c w) = inl e ->
    local_precondition_violation e ->
    sent (snd (invoke c w)) = sent w
    /\ acknowledged (this (snd (invoke c w))) = acknowledged (this w)
    /\ snd (invoke c w) = w.
Proof.
  intros c w e. rewrite invoke_table. unfold table.
  destruct (refused c (this w)); cbn [fst snd]; [auto|].
  destruct (answer _ _ _) as [rej|v]; cbn [fst snd].
  - intros [= <-] [H|[[m H]|H]]; discriminate H.
  - destruct (is_initial_response _); cbn [fst]; discriminate.
Qed.

Lemma local_failure_is_atomic_witness :
  fst (invoke (CreateMessage (VObj [("tts", VBool true)])) Fixture.fresh)
    = inl (Error "No content or embeds")
  /\ sent (snd (invoke (CreateMessage (VObj [("tts", VBool true)])) Fixture.fresh)) = []
  /\ acknowledged (this (snd (invoke (CreateMessage (VObj [("tts", VBool true)])) Fixture.fresh)))
     = Some false.
Proof.
  split; [reflexivity|].
  destruct (local_failure_is_atomic (CreateMessage (VObj [("tts", VBool true)]))
              Fixture.fresh (Error no_content_or_embeds) eq_refl
              (or_intror (or_intror eq_refl))) as (Hsent & Hack & _).
  split; [exact Hsent | exact Hack].
Defined.

(** ** The unset acknowledgment state *)

(** C5, counterexample: with [acknowledged] unset, [createFollowup] does not
    throw; it sends the webhook request and resolves with the platform's
    answer. *)
Lemma unset_followup_is_sent :
  acknowledged (this Fixture.unset) = None
  /\ ~ fails_without_request (createFollowup (VObj [("content", VStr "hi")]))
         Fixture.unset NotYetAcknowledgedError
  /\ createFollowup (VObj [("content", VStr "hi")]) Fixture.unset =
       (inr (VObj [("id", VStr "900")]),
        {| this := this Fixture.unset;
           sent := [executeWebhook "200" "tok"
                      (VObj [("wait", VBool true); ("content", VStr "hi")])] |}).
Proof.
  split; [reflexivity|]. split; [|reflexivity].
  intros (e & _ & _ & Hsent & _). vm_compute in Hsent. discriminate Hsent.
Qed.

(** C5, amended: with [acknowledged] unset, [acknowledge], [defer] and
    [createMessage] go on as on a fresh instance: same settled promise, same
    requests.  The six follow-up methods do not throw: their guard fires on
    [false] only, so each sends its webhook request, and the only error it
    can fail with is the rejection of that request. *)
Theorem unset_passes_every_guard :
  forall (c : invocation) (w : world),
    acknowledged (this w) = None ->
    if initial_call c
    then fst (invoke c w) = fst (invoke c (as_unacknowledged w))
         /\ sent (snd (invoke c w)) = sent (snd (invoke c (as_unacknowledged w)))
    else sent (snd (invoke c w)) = (sent w ++ [outbound c (this w)])%list
         /\ is_initial_response (outbound c (this w)) = false
         /\ (forall e, fst (invoke c w) = inl e -> exists rej, e = Rejected rej).
Proof.
  intros c w H. rewrite !invoke_table. unfold table, as_unacknowledged.
  assert (Ht : acknowledged_is true (this w) = false)
    by (unfold acknowledged_is; now rewrite H).
  assert (Hf : acknowledged_is false (this w) = false)
    by (unfold acknowledged_is; now rewrite H).
  destruct w as [t s]. cbn [this sent] in *.
  destruct c; cbn [initial_call refused outbound this sent];
    rewrite ?Ht, ?Hf; cbn [acknowledged_is with_acknowledged acknowledged eqb
                             id token applicationID _client];
    try (destruct (neither_text_nor_embeds content); [split; reflexivity|]);
    destruct (answer _ _ _); cbn; repeat split; try reflexivity;
    intros e [= <-]; eauto.
Qed.

Lemma unset_passes_every_guard_witness :
  (sent (snd (invoke DeleteOriginalMessage Fixture.unset)) =
     [deleteWebhookMessage "200" "tok" (VStr "@original")])
  /\ fst (invoke (Defer (VNum 64)) Fixture.unset)
     = fst (invoke (Defer (VNum 64)) Fixture.fresh).
Proof.
  split.
  - exact (proj1 (unset_passes_every_guard DeleteOriginalMessage Fixture.unset eq_refl)).
  - exact (proj1 (unset_passes_every_guard (Defer (VNum 64)) Fixture.unset eq_refl)).
Defined.

(** ** Content without text or embeds *)

(** C3, counterexample: [createMessage("")] on a fresh instance throws
    nothing.  The empty string is coerced to [{content: ""}], whose [content]
    is not [undefined]; the initial response is sent and the instance is
    acknowledged. *)
Lemma empty_string_is_sent :
  ~ fails_without_request (createMessage (VStr "")) Fixture.fresh EmptyContentError
  /\ createMessage (VStr "") Fixture.fresh =
       (inr VUndefined,
        {| this := with_acknowledged (Some true) (this Fixture.fresh);
           sent := [createInteractionResponse "100" "tok" CHANNEL_MESSAGE_WITH_SOURCE
                      (VObj [("content", VStr "");
                             ("allowed_mentions", VObj [("parse", VArr [] [])])])] |}).
Proof.
  split; [|reflexivity].
  intros (e & _ & _ & Hsent & _). vm_compute in Hsent. discriminate Hsent.
Qed.

(** C3, amended: on an instance that is not acknowledged, [createMessage]
    fails with the no-content error, before any request, exactly when its
    argument is an object whose [content] is [undefined] and whose [embeds] is
    falsy.  A bare value, the empty string included, is coerced to an object
    with a [content] string and sent as the initial response. *)
Theorem empty_content_is_rejected :
  forall (content : value) (w : world),
    acknowledged_is true (this w) = false ->
    (fails_without_request (createMessage content) w EmptyContentError
     <-> neither_text_nor_embeds content = true)
    /\ (bare content = true ->
        sent (snd (createMessage content w)) =
          (sent w ++ [createInteractionResponse (id (this w)) (token (this w))
                        CHANNEL_MESSAGE_WITH_SOURCE
                        (VObj [("content", VStr (JS.ToString content));
                               ("allowed_mentions",
                                _formatAllowedMentions (_client (this w)) VUndefined)])])%list).
Proof.
  intros content w H.
  change (createMessage content) with (invoke (CreateMessage content)).
  unfold fails_without_request. rewrite invoke_table. unfold table.
  cbn [refused outbound]. rewrite H. split.
  - destruct (neither_text_nor_embeds content); split; try discriminate;
      try (intros _; reflexivity).
    + intros _. exists (Error no_content_or_embeds). cbn. unfold EmptyContentError. auto.
    + intros (e & He & Hfst & _). exfalso. unfold EmptyContentError in He. subst e.
      destruct (answer _ _ _); cbn in Hfst; discriminate Hfst.
  - intros Hb. destruct content; try discriminate Hb; cbn; settle.
Qed.

Lemma empty_content_is_rejected_witness :
  fails_without_request (createMessage (VObj [("tts", VBool true)])) Fixture.fresh
    EmptyContentError
  /\ sent (snd (createMessage (VNum 7) Fixture.fresh)) =
       [createInteractionResponse "100" "tok" CHANNEL_MESSAGE_WITH_SOURCE
          (VObj [("content", VStr "7");
                 ("allowed_mentions", VObj [("parse", VArr [] [])])])].
Proof.
  destruct (empty_content_is_rejected (VObj [("tts", VBool true)]) Fixture.fresh eq_refl)
    as [[_ Hreject] _].
  destruct (empty_content_is_rejected (VNum 7) Fixture.fresh eq_refl) as [_ Hsent].
  split; [apply Hreject; reflexivity | apply Hsent; reflexivity].
Defined.

(** ** Content normalization *)

Lemma spec_shapes (v : value) :
  bare v = negb (JS.is_undefined v)
           && (negb (String.eqb (JS.typeof v) "object") || JS.is_null v)
  /\ content_object v = String.eqb (JS.typeof v) "object" && negb (JS.is_null v)
  /\ non_text v = negb (JS.is_undefined v) && negb (String.eqb (JS.typeof v) "string").
Proof. destruct v; repeat split; reflexivity. Qed.

Lemma sent_by (c : invocation) (w : world) :
  refused c (this w) = None ->
  sent (snd (invoke c w)) = (sent w ++ [outbound c (this w)])%list.
Proof.
  intros H. rewrite invoke_table. unfold table. rewrite H.
  destruct (answer _ _ _); [|destruct (is_initial_response _)]; reflexivity.
Qed.

(** C7: every method that takes a content argument builds its request from
    the normalized content: [createFollowup], [editMessage] and
    [editOriginalMessage] once their guard is passed, [createMessage] on
    either of its two paths.  Normalized, a bare (non-object) value is the
    object whose single field [content] is its string form, and an object
    whose [content] holds a non-string value has that field replaced by its
    string form. *)
Theorem content_is_normalized :
  forall (w : world) (v messageID : value),
    let t := this w in
    (acknowledged_is false t = false ->
       sent (snd (createFollowup v w)) =
         (sent w ++ [executeWebhook (applicationID t) (token t)
                       (JS.Object_assign [("wait", VBool true)] (spec_normalize v))])%list
       /\ sent (snd (editMessage messageID v w)) =
            (sent w ++ [editWebhookMessage (applicationID t) (token t) messageID
                          (spec_normalize v)])%list
       /\ sent (snd (editOriginalMessage v w)) =
            (sent w ++ [editWebhookMessage (applicationID t) (token t) (VStr "@original")
                          (spec_normalize v)])%list)
    /\ (acknowledged_is true t = true ->
          sent (snd (createMessage v w)) =
            (sent w ++ [executeWebhook (applicationID t) (token t)
                          (JS.Object_assign [("wait", VBool true)] (spec_normalize v))])%list)
    /\ (acknowledged_is true t = false ->
        JS.is_undefined v = false ->
        neither_text_nor_embeds v = false ->
          sent (snd (createMessage v w)) =
            (sent w ++ [createInteractionResponse (id t) (token t) CHANNEL_MESSAGE_WITH_SOURCE
                          (with_allowed_mentions (_client t) (spec_normalize v))])%list)
    /\ (bare v = true ->
          spec_normalize v = VObj [("content", VStr (JS.ToString v))])
    /\ (content_object v = true ->
        non_text (JS.prop v "content") = true ->
          spec_normalize v =
            JS.assign_prop v "content" (VStr (JS.ToString (JS.prop v "content")))
          /\ JS.prop (spec_normalize v) "content" = VStr (JS.ToString (JS.prop v "content"))).
Proof.
  intros w v messageID t. subst t.
  split; [intros H; split; [|split]|].
  - apply (sent_by (CreateFollowup v)). cbn. now rewrite H.
  - apply (sent_by (EditMessage messageID v)). cbn. now rewrite H.
  - apply (sent_by (EditOriginalMessage v)). cbn. now rewrite H.
  - split; [intros H|split; [intros H Hu Hn|split; [intros Hb|intros Ho Hn; split]]].
    + change (createMessage v) with (invoke (CreateMessage v)).
      rewrite sent_by; cbn [refused outbound]; now rewrite H.
    + change (createMessage v) with (invoke (CreateMessage v)).
      rewrite sent_by; cbn [refused outbound]; now rewrite H, ?Hu, ?Hn.
    + unfold spec_normalize. now rewrite Hb.
    + unfold spec_normalize. destruct v; try discriminate. all: now rewrite Hn.
    + unfold spec_normalize. destruct v; try discriminate.
      all: rewrite Hn; cbn -[JS.assoc JS.assoc_set]; now rewrite assoc_set_same.
Qed.

Lemma content_is_normalized_witness :
  sent (snd (createFollowup (VNum 42) Fixture.acked)) =
    [executeWebhook "200" "tok" (VObj [("wait", VBool true); ("content", VStr "42")])]
  /\ sent (snd (editMessage (VStr "5") (VObj [("content", VNull); ("tts", VBool true)])
                  Fixture.acked)) =
       [editWebhookMessage "200" "tok" (VStr "5")
          (VObj [("content", VStr "null"); ("tts", VBool true)])]
  /\ sent (snd (createMessage (VBool true) Fixture.fresh)) =
       [createInteractionResponse "100" "tok" CHANNEL_MESSAGE_WITH_SOURCE
          (VObj [("content", VStr "true");
                 ("allowed_mentions", VObj [("parse", VArr [] [])])])]
  /\ spec_normalize (VStr "hi") = VObj [("content", VStr "hi")].
Proof.
  destruct (content_is_normalized Fixture.acked (VNum 42) (VStr "5"))
    as (Hfollow & _ & _ & Hbare & _).
  destruct (content_is_normalized Fixture.acked
              (VObj [("content", VNull); ("tts", VBool true)]) (VStr "5"))
    as (Hedit & _).
  destruct (content_is_normalized Fixture.fresh (VBool true) VUndefined)
    as (_ & _ & Hinitial & _).
  destruct (content_is_normalized Fixture.fresh (VStr "hi") VUndefined)
    as (_ & _ & _ & Hstr & _).
  split; [exact (proj1 (Hfollow eq_refl))|].
  split; [exact (proj1 (proj2 (Hedit eq_refl)))|].
  split; [exact (Hinitial eq_refl eq_refl eq_refl)|].
  exact (Hstr eq_refl).
Defined.

(** ** The constructor *)

Ltac run_constructor :=
  unfold new_CommandInteraction, Constructor.body, Constructor.hydrate_resolved,
    Constructor.hydrate_users, Constructor.hydrate_members, Constructor.hydrate_roles,
    Constructor.hydrate_channels, Constructor.hydrate_messages,
    Constructor.hydrate_member, Array_from, forEach, this_Array, has_roles,
    payload_block, instance_block.

(** No property of a block is named [length] or [set]: its names are
    numerals. *)
Lemma block_has_only_ids (o : block) (k : string) :
  is_snowflake k = false -> block_prop o k = VUndefined.
Proof.
  intros Hk. unfold block_prop. destruct o as [l Hl]. cbn [entries].
  induction l as [|[k' v] l IH]; [reflexivity|].
  cbn in Hl. apply andb_true_iff in Hl as [Hk' Hl].
  cbn [JS.assoc]. destruct (String.eqb k k') eqn:E.
  - apply String.eqb_eq in E. subst k'. congruence.
  - now apply IH.
Qed.

Lemma block_is_not_array_like (o : block) :
  block_prop o "length" = VUndefined /\ block_prop o "set" = VUndefined.
Proof. split; now apply block_has_only_ids. Qed.


Lemma no_roles_constructs (info : Payload.Info) (client : Client) :
  has_roles info = false ->
  exists t, new_CommandInteraction info client = inr t
            /\ data t = Some (Payload.data info)
            /\ member t = match Payload.member info with
                          | Some raw =>
                              Some (new_Member raw (guilds_get client (Payload.guild_id info))
                                               (Some client))
                          | None => None
                          end.
Proof.
  run_constructor.
  destruct (Payload.channel_id info), (Payload.guild_id info),
    (Payload.member info), (Payload.user info),
    (Payload.resolved (Payload.data info)) as [[[?|] [?|] [?|] [?|] [?|]]|];
    cbn; intros H; try discriminate H; eexists; repeat split.
Qed.

(** C6: a payload with a member whose guild is not in the registry.  The
    registry lookup yields [undefined], the member is built with it, and the
    step throws nothing: [this.member] is a guild-less member record made
    from the raw member.  The pass over the resolved members throws nothing
    either, and with no roles kind in the payload the constructor as a whole
    returns the instance with that member. *)
Theorem member_without_guild :
  forall (info : Payload.Info) (client : Client) (w : world) (raw : value),
    Payload.member info = Some raw ->
    (forall g, Payload.guild_id info = Some g -> guilds client !! g = None) ->
    exists m,
      Constructor.hydrate_member info client w =
        (inr tt, {| this := with_member (Some m) (this w); sent := sent w |})
      /\ guildless m
      /\ member_raw m = raw
      /\ (forall res, Constructor.hydrate_members res w = (inr tt, w))
      /\ (has_roles info = false ->
          exists t, new_CommandInteraction info client = inr t /\ member t = Some m).
Proof.
  intros info client w raw Hm Hg.
  assert (Hget : guilds_get client (Payload.guild_id info) = RUndefined).
  { unfold guilds_get. destruct (Payload.guild_id info) as [g|]; [|reflexivity].
    now rewrite (Hg g eq_refl). }
  exists (new_Member raw RUndefined (Some client)).
  split; [|split; [reflexivity|split; [reflexivity|split]]].
  - unfold Constructor.hydrate_member. rewrite Hm, Hget. reflexivity.
  - intros res. unfold Constructor.hydrate_members, Array_from, forEach.
    destruct (Payload.members res); reflexivity.
  - intros Hr. destruct (no_roles_constructs info client Hr) as (t & Hnew & _ & Hmem).
    exists t. split; [exact Hnew|]. now rewrite Hmem, Hm, Hget.
Qed.

Lemma member_without_guild_witness :
  exists t, new_CommandInteraction Fixture.info Fixture.client = inr t
            /\ member t = Some {| member_raw := VObj [("nick", VStr "n")];
                                  member_guild := RUndefined |}.
Proof.
  destruct (member_without_guild Fixture.info Fixture.client Fixture.fresh
              (VObj [("nick", VStr "n")]) eq_refl
              (fun g _ => lookup_empty g))
    as (m & _ & Hless & Hraw & _ & Hnew).
  destruct (Hnew eq_refl) as (t & Ht & Hm).
  exists t. split; [exact Ht|].
  rewrite Hm. destruct m as [r g]. unfold guildless in Hless. cbn in Hless, Hraw.
  subst. reflexivity.
Defined.

(** C4, at the failing input: a payload whose resolved block has a roles
    kind.  The constructor evaluates [this.Array.from]; [this.Array] is
    [undefined], and the construction ends in a [TypeError] before any role
    is looked at.  Next to it, a users block: the constructor returns, and
    the block of the instance is the raw block, its entry not hydrated. *)
Theorem roles_block_crashes :
  new_CommandInteraction (Fixture.with_resolved (Fixture.only_roles Fixture.one_role))
    Fixture.client
  = inl (TypeError "Cannot read properties of undefined (reading 'from')")
  /\ ~ hydrates (Fixture.with_resolved (Fixture.only_roles Fixture.one_role)) Fixture.client
  /\ (exists t,
        new_CommandInteraction (Fixture.with_resolved (Fixture.only_users Fixture.empty_user))
          Fixture.client = inr t
        /\ instance_block KUsers t = Some Fixture.empty_user).
Proof.
  split; [reflexivity|]. split.
  - intros [t Ht]. discriminate Ht.
  - eexists. split; reflexivity.
Qed.




(** ** Further properties of the response methods *)

Lemma refused_is_local (c : invocation) (t : CommandInteraction) (e : error) :
  refused c t = Some e -> exists m, e = Error m.
Proof.
  destruct c; cbn [refused];
    repeat match goal with
           | |- context [if ?b then _ else _] => destruct b
           end; intros [= <-]; eauto.
Qed.

Lemma issued_of (c : invocation) (w : world) :
  issued (step_of c w) =
  match refused c (this w) with
  | Some _ => []
  | None => [outbound c (this w)]
  end.
Proof. unfold issued. cbn [step_of pre post]. apply issued_by. Qed.

Lemma issued_one (c : invocation) (w : world) (r : request) :
  issued (step_of c w) = [r] ->
  refused c (this w) = None /\ r = outbound c (this w).
Proof.
  rewrite issued_of. destruct (refused c (this w)); [discriminate|].
  now intros [= <-].
Qed.

(** A call hands no request to the client exactly when it fails with an
    error the class throws itself, and then nothing has changed; in every
    other case it hands over exactly one request. *)
Theorem one_request_unless_refused :
  forall (c : invocation) (w : world),
    (issued (step_of c w) = []
     /\ (exists m, fst (invoke c w) = inl (Error m))
     /\ snd (invoke c w) = w)
    \/ (exists r, issued (step_of c w) = [r]
                  /\ sent (snd (invoke c w)) = (sent w ++ [r])%list
                  /\ forall m, fst (invoke c w) <> inl (Error m)).
Proof.
  intros c w. rewrite issued_of, invoke_table. unfold table.
  destruct (refused c (this w)) as [e|] eqn:R.
  - left. destruct (refused_is_local _ _ _ R) as [m ->]. cbn. eauto.
  - right. exists (outbound c (this w)). split; [reflexivity|].
    destruct (answer _ _ _); [|destruct (is_initial_response _)]; cbn;
      (split; [reflexivity | intros m; discriminate]).
Qed.

(** A request the platform rejects: the method fails with that rejection,
    passed on as it is, and the instance is left as it was, so that the call
    can be made again. *)
Theorem rejection_is_passed_on :
  forall (c : invocation) (w : world) (r : request) (rej : rejection),
    issued (step_of c w) = [r] ->
    answer (_client (this w)) (sent w) r = inl rej ->
    invoke c w = (inl (Rejected rej), {| this := this w; sent := sent w ++ [r] |}).
Proof.
  intros c w r rej Hi Ha. apply issued_one in Hi as [R ->].
  rewrite invoke_table. unfold table. now rewrite R, Ha.
Qed.

Lemma rejection_is_passed_on_witness :
  invoke (Acknowledge (VNum 64)) (Scenario.fresh_on Scenario.rejecting)
  = (inl (Rejected (DiscordRESTError 10062 "Unknown interaction")),
     {| this := this (Scenario.fresh_on Scenario.rejecting);
        sent := [createInteractionResponse "100" "tok" DEFERRED_CHANNEL_MESSAGE_WITH_SOURCE
                   (VObj [("flags", VNum 64)])] |})
  /\ List.map outcome
       (run [Acknowledge (VNum 64); Acknowledge (VNum 64); CreateFollowup (VStr "late")]
            (Scenario.fresh_on Scenario.flaky))
     = [inl (Rejected (DiscordHTTPError 502 "Bad Gateway"));
        inr VUndefined;
        inr (VObj [("id", VStr "901")])].
Proof.
  split; [|reflexivity].
  exact (rejection_is_passed_on (Acknowledge (VNum 64))
           (Scenario.fresh_on Scenario.rejecting)
           (createInteractionResponse "100" "tok" DEFERRED_CHANNEL_MESSAGE_WITH_SOURCE
              (VObj [("flags", VNum 64)]))
           (DiscordRESTError 10062 "Unknown interaction") eq_refl eq_refl).
Defined.

(** A request the platform resolves: an initial response acknowledges the
    instance and resolves with [undefined], the answer being dropped; any
    other request resolves with the answer and leaves the instance alone. *)
Theorem resolution_by_kind :
  forall (c : invocation) (w : world) (r : request) (v : value),
    issued (step_of c w) = [r] ->
    answer (_client (this w)) (sent w) r = inr v ->
    invoke c w =
      if is_initial_response r
      then (inr VUndefined,
            {| this := with_acknowledged (Some true) (this w); sent := sent w ++ [r] |})
      else (inr v, {| this := this w; sent := sent w ++ [r] |}).
Proof.
  intros c w r v Hi Ha. apply issued_one in Hi as [R ->].
  rewrite invoke_table. unfold table. rewrite R, Ha.
  destruct (is_initial_response _); reflexivity.
Qed.

Lemma resolution_by_kind_witness :
  invoke (CreateMessage (VStr "pong")) Fixture.fresh
  = (inr VUndefined,
     {| this := with_acknowledged (Some true) (this Fixture.fresh);
        sent := [createInteractionResponse "100" "tok" CHANNEL_MESSAGE_WITH_SOURCE
                   (VObj [("content", VStr "pong");
                          ("allowed_mentions", VObj [("parse", VArr [] [])])])] |})
  /\ invoke GetOriginalMessage Fixture.acked
     = (inr (VObj [("id", VStr "900")]),
        {| this := this Fixture.acked;
           sent := [getWebhookMessage "200" "tok" (VStr "@original")] |}).
Proof.
  split.
  - exact (resolution_by_kind (CreateMessage (VStr "pong")) Fixture.fresh
             (createInteractionResponse "100" "tok" CHANNEL_MESSAGE_WITH_SOURCE
                (VObj [("content", VStr "pong");
                       ("allowed_mentions", VObj [("parse", VArr [] [])])]))
             (VObj [("id", VStr "900")]) eq_refl eq_refl).
  - exact (resolution_by_kind GetOriginalMessage Fixture.acked
             (getWebhookMessage "200" "tok" (VStr "@original"))
             (VObj [("id", VStr "900")]) eq_refl eq_refl).
Defined.

(** The one change a method ever makes to the instance is to set
    [acknowledged] to [true], and the only call that makes it is an
    [acknowledge], [defer] or [createMessage] that found the instance not
    acknowledged and whose request resolved.  The follow-up methods never
    touch the instance. *)
Theorem instance_changes_by_acknowledgment_only :
  forall (c : invocation) (w : world),
    this (snd (invoke c w)) = this w
    \/ (initial_call c = true
        /\ acknowledged_is true (this w) = false
        /\ fst (invoke c w) = inr VUndefined
        /\ this (snd (invoke c w)) = with_acknowledged (Some true) (this w)).
Proof.
  intros c w. rewrite invoke_table. unfold table.
  destruct (refused c (this w)) eqn:R; [now left|].
  destruct (answer _ _ _); [now left|].
  destruct (is_initial_response (outbound c (this w))) eqn:I; [|now left].
  right. cbn [fst snd this].
  destruct c; cbn [outbound refused] in I, R; try discriminate I;
    destruct (acknowledged_is true (this w)); try discriminate; auto.
Qed.

Lemma after_acknowledgment (c : invocation) (w : world) :
  acknowledged_is true (this w) = true ->
  match c with
  | Acknowledge _ | Defer _ => invoke c w = (inl (Error already_acknowledged), w)
  | _ => exists r, issued (step_of c w) = [r]
                   /\ is_initial_response r = false
                   /\ this (snd (invoke c w)) = this w
  end.
Proof.
  intros H.
  assert (Hf : acknowledged_is false (this w) = false).
  { unfold acknowledged_is in *. destruct (acknowledged (this w)) as [[|]|];
      cbn in *; congruence. }
  rewrite issued_of, invoke_table. unfold table.
  destruct c; cbn [refused outbound]; rewrite ?H, ?Hf; try reflexivity;
    eexists; (split; [reflexivity|]); (split; [reflexivity|]);
    destruct (answer _ _ _); reflexivity.
Qed.

(** Once the instance is acknowledged it stays so through every later
    call, whatever the platform answers: in any sequence of calls from there
    on, each [acknowledge] and [defer] fails with the already-acknowledged
    error, and every other call hands the client one request, never an
    initial response. *)
Theorem acknowledged_is_final :
  forall (calls : list invocation) (w : world),
    acknowledged (this w) = Some true ->
    Forall (fun s =>
              acknowledged (this (post s)) = Some true
              /\ match invoked s with
                 | Acknowledge _ | Defer _ =>
                     outcome s = inl (Error already_acknowledged) /\ issued s = []
                 | _ => exists r, issued s = [r] /\ is_initial_response r = false
                 end)
           (run calls w).
Proof.
  induction calls as [|c rest IH]; intros w H; cbn [run]; constructor.
  - apply acknowledged_is_true in H.
    pose proof (after_acknowledgment c w H) as Hc.
    pose proof (acknowledged_stays c w H) as Hs.
    apply acknowledged_is_true in Hs.
    split; [exact Hs|]. cbn [step_of invoked outcome].
    destruct c; try (destruct Hc as (r & Hi & Hr & _); now exists r).
    all: rewrite issued_of; apply acknowledged_is_true in Hs;
      cbn [refused]; rewrite H, Hc; split; reflexivity.
  - apply IH. cbn [step_of post]. apply acknowledged_is_true.
    apply acknowledged_stays. now apply acknowledged_is_true.
Qed.

Lemma acknowledged_is_final_witness :
  Forall (fun s => acknowledged (this (post s)) = Some true)
         (run [EditOriginalMessage (VStr "a"); Defer VUndefined; DeleteOriginalMessage]
              {| this := with_acknowledged (Some true)
                           (this (Scenario.fresh_on Scenario.rejecting));
                 sent := [] |}).
Proof.
  refine (List.Forall_impl _ _
            (acknowledged_is_final
               [EditOriginalMessage (VStr "a"); Defer VUndefined; DeleteOriginalMessage]
               {| this := with_acknowledged (Some true)
                            (this (Scenario.fresh_on Scenario.rejecting));
                  sent := [] |} eq_refl)).
  intros s [H _]. exact H.
Defined.

(** [deleteOriginalMessage] and [editOriginalMessage] are [deleteMessage]
    and [editMessage] on ["@original"]: same request, same settlement, same
    state, unless the instance is unacknowledged, where each of the four
    fails with its own name in the message. *)
Theorem original_is_a_message_ID :
  forall (content : value) (w : world),
    if acknowledged_is false (this w)
    then deleteOriginalMessage w
           = (inl (Error (cannot_acknowledge "deleteOriginalMessage")), w)
         /\ deleteMessage (VStr "@original") w
           = (inl (Error (cannot_acknowledge "deleteMessage")), w)
         /\ editOriginalMessage content w
           = (inl (Error (cannot_acknowledge "editOriginalMessage")), w)
         /\ editMessage (VStr "@original") content w
           = (inl (Error (cannot_acknowledge "editMessage")), w)
    else deleteOriginalMessage w = deleteMessage (VStr "@original") w
         /\ editOriginalMessage content w = editMessage (VStr "@original") content w.
Proof.
  intros content w.
  change (deleteOriginalMessage w) with (invoke DeleteOriginalMessage w).
  change (deleteMessage (VStr "@original") w)
    with (invoke (DeleteMessage (VStr "@original")) w).
  change (editOriginalMessage content w) with (invoke (EditOriginalMessage content) w).
  change (editMessage (VStr "@original") content w)
    with (invoke (EditMessage (VStr "@original") content) w).
  rewrite !invoke_table. unfold table. cbn [refused outbound].
  destruct (acknowledged_is false (this w)); repeat split; reflexivity.
Qed.

(** ** Content: what is checked, and where *)

Lemma spec_normalize_again (v : value) : spec_normalize (spec_normalize v) = spec_normalize v.
Proof.
  unfold spec_normalize at 2 3.
  destruct (bare v) eqn:B; [reflexivity|].
  destruct (content_object v && non_text (JS.prop v "content")) eqn:C.
  - apply andb_true_iff in C as [Co Cn].
    unfold spec_normalize.
    destruct v; try discriminate Co; cbn -[JS.assoc JS.assoc_set];
      now rewrite assoc_set_same.
  - unfold spec_normalize. now rewrite B, C.
Qed.

Lemma normalized_is_checked_alike (v : value) :
  neither_text_nor_embeds (spec_normalize v) = neither_text_nor_embeds v
  /\ JS.is_undefined (spec_normalize v) = JS.is_undefined v.
Proof.
  unfold spec_normalize.
  destruct (bare v) eqn:B; [destruct v; try discriminate B; split; reflexivity|].
  destruct (content_object v && non_text (JS.prop v "content")) eqn:C;
    [|split; reflexivity].
  apply andb_true_iff in C as [Co Cn].
  unfold neither_text_nor_embeds.
  destruct v; try discriminate Co; cbn -[JS.assoc JS.assoc_set] in *;
    rewrite assoc_set_same; cbn;
    (destruct (default VUndefined (JS.assoc "content" _)); try discriminate Cn;
     split; reflexivity).
Qed.

(** Normalizing is idempotent where it counts: a caller who hands any of
    the four methods an already normalized content gets the very same guard,
    request, settlement and state as with the content itself. *)
Theorem normalized_content_is_stable :
  forall (v messageID : value) (w : world),
    createFollowup (spec_normalize v) w = createFollowup v w
    /\ createMessage (spec_normalize v) w = createMessage v w
    /\ editMessage messageID (spec_normalize v) w = editMessage messageID v w
    /\ editOriginalMessage (spec_normalize v) w = editOriginalMessage v w.
Proof.
  intros v messageID w.
  destruct (normalized_is_checked_alike v) as [Hn Hu].
  repeat split.
  - change (invoke (CreateFollowup (spec_normalize v)) w = invoke (CreateFollowup v) w).
    rewrite !invoke_table. unfold table, followup_request. cbn [refused outbound].
    unfold followup_request. now rewrite spec_normalize_again.
  - change (invoke (CreateMessage (spec_normalize v)) w = invoke (CreateMessage v) w).
    rewrite !invoke_table. unfold table. cbn [refused outbound].
    unfold followup_request. rewrite spec_normalize_again, Hn, Hu.
    destruct v; reflexivity.
  - change (invoke (EditMessage messageID (spec_normalize v)) w
            = invoke (EditMessage messageID v) w).
    rewrite !invoke_table. unfold table. cbn [refused outbound].
    now rewrite spec_normalize_again.
  - change (invoke (EditOriginalMessage (spec_normalize v)) w
            = invoke (EditOriginalMessage v) w).
    rewrite !invoke_table. unfold table. cbn [refused outbound].
    now rewrite spec_normalize_again.
Qed.

Lemma empty_is_its_own_normal_form (v : value) :
  neither_text_nor_embeds v = true -> spec_normalize v = v.
Proof.
  unfold neither_text_nor_embeds, spec_normalize. intros H.
  apply andb_true_iff in H as [H _]. apply andb_true_iff in H as [Ho Hc].
  destruct v; try discriminate Ho; cbn in *;
    destruct (default VUndefined (JS.assoc "content" _)); try discriminate Hc;
    reflexivity.
Qed.

(** An object with neither text nor embeds is turned down by
    [createMessage] on an instance that is not acknowledged, and nowhere
    else: [createFollowup], [editMessage] and [editOriginalMessage] send it as
    it is once their guard is passed, and so does [createMessage] on an
    acknowledged instance. *)
Theorem empty_content_is_sent_after_acknowledgment :
  forall (v messageID : value) (w : world),
    neither_text_nor_embeds v = true ->
    acknowledged_is false (this w) = false ->
    issued (step_of (CreateFollowup v) w)
      = [executeWebhook (applicationID (this w)) (token (this w))
           (JS.Object_assign [("wait", VBool true)] v)]
    /\ issued (step_of (EditMessage messageID v) w)
      = [editWebhookMessage (applicationID (this w)) (token (this w)) messageID v]
    /\ issued (step_of (EditOriginalMessage v) w)
      = [editWebhookMessage (applicationID (this w)) (token (this w)) (VStr "@original") v]
    /\ issued (step_of (CreateMessage v) w)
      = if acknowledged_is true (this w)
        then [executeWebhook (applicationID (this w)) (token (this w))
                (JS.Object_assign [("wait", VBool true)] v)]
        else [].
Proof.
  intros v messageID w Hn Hf.
  rewrite !issued_of. cbn [refused outbound]. unfold followup_request.
  rewrite Hf, Hn, (empty_is_its_own_normal_form v Hn).
  destruct (acknowledged_is true (this w)); repeat split; reflexivity.
Qed.

Lemma empty_content_is_sent_after_acknowledgment_witness :
  issued (step_of (CreateMessage (VObj [])) Fixture.acked)
    = [executeWebhook "200" "tok" (VObj [("wait", VBool true)])]
  /\ issued (step_of (CreateMessage (VObj [])) Fixture.unset) = []
  /\ issued (step_of (CreateFollowup (VObj [])) Fixture.unset)
    = [executeWebhook "200" "tok" (VObj [("wait", VBool true)])].
Proof.
  destruct (empty_content_is_sent_after_acknowledgment (VObj []) VUndefined
              Fixture.acked eq_refl eq_refl) as (_ & _ & _ & Hacked).
  destruct (empty_content_is_sent_after_acknowledgment (VObj []) VUndefined
              Fixture.unset eq_refl eq_refl) as (Hfollow & _ & _ & Hunset).
  split; [exact Hacked|]. split; [exact Hunset | exact Hfollow].
Defined.

(** ** Properties written over the content *)

Lemma assoc_set_other k k' x l :
  k <> k' -> JS.assoc k' (JS.assoc_set k x l) = JS.assoc k' l.
Proof.
  intros Hne. induction l as [|[k0 v0] l IH]; cbn [JS.assoc JS.assoc_set].
  - destruct (String.eqb k' k) eqn:E; [|reflexivity].
    apply String.eqb_eq in E. congruence.
  - destruct (String.eqb k k0) eqn:E; cbn [JS.assoc].
    + apply String.eqb_eq in E. subst k0.
      destruct (String.eqb k' k) eqn:E'; [|reflexivity].
      apply String.eqb_eq in E'. congruence.
    + now rewrite IH.
Qed.

Lemma assoc_not_a_key k l : ~ In k (keys l) -> JS.assoc k l = None.
Proof.
  induction l as [|[k0 v0] l IH]; cbn; [reflexivity|]. intros H.
  destruct (String.eqb k k0) eqn:E.
  - apply String.eqb_eq in E. subst. tauto.
  - apply IH. tauto.
Qed.

Lemma keys_after_set k x l k' :
  In k' (keys (JS.assoc_set k x l)) -> k' = k \/ In k' (keys l).
Proof.
  induction l as [|[k0 v0] l IH]; cbn.
  - intros [->|[]]. now left.
  - destruct (String.eqb k k0) eqn:E; cbn.
    + apply String.eqb_eq in E. subst. tauto.
    + intros [->|H]; [tauto|]. destruct (IH H); tauto.
Qed.

Lemma set_keeps_names_apart k x l : List.NoDup (keys l) -> List.NoDup (keys (JS.assoc_set k x l)).
Proof.
  induction l as [|[k0 v0] l IH]; cbn; intros H.
  - constructor; [intros [] | constructor].
  - inversion H as [|? ? Hnot Hrest]; subst.
    destruct (String.eqb k k0) eqn:E; cbn.
    + apply String.eqb_eq in E. subst. now constructor.
    + constructor; [|now apply IH].
      intros Hin. apply keys_after_set in Hin as [->|Hin]; [|tauto].
      now rewrite String.eqb_refl in E.
Qed.

(** Reading a property after [Object.assign]: the source's, or else the
    target's *)
Lemma assoc_after_assign k src target :
  List.NoDup (keys src) ->
  JS.assoc k (fold_left (fun acc kv => JS.assoc_set (fst kv) (snd kv) acc) src target)
  = match JS.assoc k src with
    | Some x => Some x
    | None => JS.assoc k target
    end.
Proof.
  revert target. induction src as [|[k0 v0] src IH]; intros target H;
    cbn [fold_left JS.assoc fst snd]; [reflexivity|].
  inversion H as [|? ? Hnot Hrest]; subst.
  rewrite (IH _ Hrest).
  destruct (String.eqb k k0) eqn:E.
  - apply String.eqb_eq in E. subst k0.
    now rewrite (assoc_not_a_key k src Hnot), assoc_set_same.
  - rewrite assoc_set_other; [reflexivity|].
    intros ->. now rewrite String.eqb_refl in E.
Qed.

(** The normal form of a content object: its properties, with a
    non-string [content] in its string form *)
Lemma normalize_object (props : list (string * value)) :
  exists props',
    spec_normalize (VObj props) = VObj props'
    /\ (List.NoDup (keys props) -> List.NoDup (keys props'))
    /\ JS.assoc "content" props'
       = match JS.assoc "content" props with
         | Some c => Some (if non_text c then VStr (JS.ToString c) else c)
         | None => None
         end
    /\ (forall k, k <> "content" -> JS.assoc k props' = JS.assoc k props).
Proof.
  unfold spec_normalize. cbn [bare content_object andb JS.prop JS.assign_prop].
  destruct (JS.assoc "content" props) as [c|] eqn:Ec; cbn.
  - destruct (non_text c) eqn:Hc.
    + eexists. split; [reflexivity|]. split; [apply set_keeps_names_apart|].
      split; [apply assoc_set_same|].
      intros k Hk. apply assoc_set_other. congruence.
    + exists props. rewrite Ec. auto.
  - exists props. rewrite Ec. auto.
Qed.

(** The body of a follow-up made from a content object is [{wait: true}]
    with the content's own properties written over it: [wait] is [true] unless
    the content has a [wait] of its own, which then wins; [content] is the
    content's, in its string form; every other property is the content's,
    untouched. *)
Theorem followup_body :
  forall (props : list (string * value)) (w : world),
    acknowledged_is false (this w) = false ->
    List.NoDup (keys props) ->
    exists body,
      issued (step_of (CreateFollowup (VObj props)) w)
        = [executeWebhook (applicationID (this w)) (token (this w)) (VObj body)]
      /\ JS.assoc "wait" body
         = Some (match JS.assoc "wait" props with Some x => x | None => VBool true end)
      /\ JS.assoc "content" body
         = match JS.assoc "content" props with
           | Some c => Some (if non_text c then VStr (JS.ToString c) else c)
           | None => None
           end
      /\ (forall k, k <> "wait" -> k <> "content" -> JS.assoc k body = JS.assoc k props).
Proof.
  intros props w Hf Hnd.
  rewrite issued_of. cbn [refused outbound]. rewrite Hf.
  unfold followup_request.
  destruct (normalize_object props) as (props' & -> & Hnd' & Hcontent & Hother).
  specialize (Hnd' Hnd).
  unfold JS.Object_assign. cbn [JS.own_enumerable]. eexists.
  split; [reflexivity|]. split; [|split].
  - rewrite assoc_after_assign by exact Hnd'.
    rewrite Hother by discriminate.
    destruct (JS.assoc "wait" props); reflexivity.
  - rewrite assoc_after_assign by exact Hnd'. rewrite Hcontent.
    destruct (JS.assoc "content" props); reflexivity.
  - intros k Hw Hk. rewrite assoc_after_assign by exact Hnd'.
    rewrite (Hother k Hk).
    destruct (JS.assoc k props); [reflexivity|].
    cbn. destruct (String.eqb k "wait") eqn:E; [|reflexivity].
    apply String.eqb_eq in E. congruence.
Qed.

Lemma followup_body_witness :
  exists body,
    issued (step_of (CreateFollowup
                       (VObj [("content", VNum 7); ("wait", VBool false); ("tts", VBool true)]))
                    Fixture.acked)
    = [executeWebhook "200" "tok" (VObj body)]
    /\ JS.assoc "wait" body = Some (VBool false)
    /\ JS.assoc "content" body = Some (VStr "7")
    /\ JS.assoc "tts" body = Some (VBool true).
Proof.
  assert (Hnd : List.NoDup (keys [("content", VNum 7); ("wait", VBool false);
                                  ("tts", VBool true)])).
  { repeat constructor; cbn; intuition discriminate. }
  destruct (followup_body
              [("content", VNum 7); ("wait", VBool false); ("tts", VBool true)]
              Fixture.acked eq_refl Hnd)
    as (body & Hissued & Hwait & Hcontent & Hother).
  exists body. split; [exact Hissued|]. split; [exact Hwait|]. split; [exact Hcontent|].
  apply (Hother "tts"); discriminate.
Defined.

Lemma allowed_mentions_written (client : Client) (n : value) :
  content_object n = true ->
  JS.prop (with_allowed_mentions client n) "allowed_mentions"
  = _formatAllowedMentions client (JS.prop n "allowedMentions").
Proof.
  unfold with_allowed_mentions.
  destruct n; try discriminate; intros _; cbn -[JS.assoc JS.assoc_set];
    now rewrite assoc_set_same.
Qed.

Lemma normalized_mentions (v : value) :
  content_object (spec_normalize v) = negb (JS.is_undefined v)
  /\ JS.prop (spec_normalize v) "allowedMentions"
     = if content_object v then JS.prop v "allowedMentions" else VUndefined.
Proof.
  unfold spec_normalize.
  destruct v; try (split; reflexivity);
    cbn -[JS.assoc JS.assoc_set];
    destruct (non_text _); cbn -[JS.assoc JS.assoc_set];
    rewrite ?assoc_set_other by discriminate; split; reflexivity.
Qed.

(** The data of an initial message response always carries
    [allowed_mentions], and it is always the client's formatting of the
    content's [allowedMentions] ([undefined] for a bare value): an
    [allowed_mentions] the caller put in the content is written over.  The
    test that guards the assignment never fails once the content has passed
    the check before it. *)
Theorem initial_response_mentions :
  forall (v : value) (w : world),
    acknowledged_is true (this w) = false ->
    JS.is_undefined v = false ->
    neither_text_nor_embeds v = false ->
    exists data,
      issued (step_of (CreateMessage v) w)
        = [createInteractionResponse (id (this w)) (token (this w))
             CHANNEL_MESSAGE_WITH_SOURCE data]
      /\ JS.prop data "allowed_mentions"
         = _formatAllowedMentions (_client (this w))
             (if content_object v then JS.prop v "allowedMentions" else VUndefined).
Proof.
  intros v w Ha Hu Hn.
  rewrite issued_of. cbn [refused outbound]. rewrite Ha, Hn, Hu.
  eexists. split; [reflexivity|].
  destruct (normalized_mentions v) as [Ho Hm].
  rewrite allowed_mentions_written by (now rewrite Ho, Hu).
  now rewrite Hm.
Qed.

Lemma initial_response_mentions_witness :
  exists data,
    issued (step_of (CreateMessage
                       (VObj [("content", VStr "hi");
                              ("allowed_mentions", VObj [("parse", VArr [VStr "everyone"] [])])]))
                    Fixture.fresh)
    = [createInteractionResponse "100" "tok" CHANNEL_MESSAGE_WITH_SOURCE data]
    /\ JS.prop data "allowed_mentions" = VObj [("parse", VArr [] [])].
Proof.
  exact (initial_response_mentions
           (VObj [("content", VStr "hi");
                  ("allowed_mentions", VObj [("parse", VArr [VStr "everyone"] [])])])
           Fixture.fresh eq_refl eq_refl eq_refl).
Defined.

(** ** Identity *)

Lemma sent_after (c : invocation) (w : world) :
  sent (snd (invoke c w)) = (sent w ++ issued (step_of c w))%list.
Proof.
  rewrite issued_of, invoke_table. unfold table.
  destruct (refused c (this w)); cbn [snd sent].
  - now rewrite app_nil_r.
  - destruct (answer _ _ _); [|destruct (is_initial_response _)]; reflexivity.
Qed.

Lemma identity_after (c : invocation) (w : world) :
  _client (this (snd (invoke c w))) = _client (this w)
  /\ id (this (snd (invoke c w))) = id (this w)
  /\ token (this (snd (invoke c w))) = token (this w)
  /\ applicationID (this (snd (invoke c w))) = applicationID (this w).
Proof.
  rewrite invoke_table. unfold table.
  destruct (refused c (this w)); [auto|].
  destruct (answer _ _ _); [auto|].
  destruct (is_initial_response _); cbn; auto.
Qed.

Lemma addressed_with_identity (c : invocation) (t : CommandInteraction) :
  request_token (outbound c t) = token t
  /\ request_target (outbound c t)
     = if is_initial_response (outbound c t) then id t else applicationID t.
Proof.
  destruct c; cbn [outbound]; unfold followup_request;
    try destruct (acknowledged_is true t); split; reflexivity.
Qed.

Lemma last_post (s : world) (l : list world) (d : world) :
  List.last (s :: l) d = List.last l s.
Proof.
  revert s d. induction l as [|a l IH]; intros s d; [reflexivity|].
  change (List.last (s :: a :: l) d) with (List.last (a :: l) d).
  change (List.last (a :: l) s) with (List.last (a :: l) s).
  now rewrite !IH.
Qed.

(** Through any sequence of calls the instance keeps its client, ID, token
    and application ID; every request of the sequence is made with that
    token, addressed to the interaction for an initial response and to the
    application for a webhook; and the log only grows: at the end it is the
    log at the start followed by the requests of the calls, in order. *)
Theorem identity_is_kept :
  forall (calls : list invocation) (w : world),
    Forall (fun s =>
              _client (this (post s)) = _client (this w)
              /\ id (this (post s)) = id (this w)
              /\ token (this (post s)) = token (this w)
              /\ applicationID (this (post s)) = applicationID (this w)
              /\ Forall (fun r =>
                           request_token r = token (this w)
                           /\ request_target r
                              = if is_initial_response r then id (this w)
                                else applicationID (this w))
                        (issued s))
           (run calls w)
    /\ sent (List.last (List.map post (run calls w)) w)
       = (sent w ++ List.concat (List.map issued (run calls w)))%list.
Proof.
  induction calls as [|c rest IH]; intros w; cbn [run List.map List.concat].
  - split; [constructor | cbn; now rewrite app_nil_r].
  - destruct (IH (post (step_of c w))) as [Hall Hlog].
    destruct (identity_after c w) as (Hc & Hi & Ht & Ha).
    cbn [step_of post] in Hall, Hlog |- *.
    split.
    + constructor.
      * cbn [post step_of]. repeat (split; [assumption|]).
        rewrite issued_of. destruct (refused c (this w)); constructor;
          [apply addressed_with_identity | constructor].
      * eapply List.Forall_impl; [|exact Hall].
        intros s (Hc' & Hi' & Ht' & Ha' & Hreq).
        rewrite Hc', Hi', Ht', Ha'. repeat (split; [assumption|]).
        eapply List.Forall_impl; [|exact Hreq].
        intros r [Hr1 Hr2]. now rewrite Hr1, Hr2, Ht, Hi, Ha.
    + rewrite last_post. rewrite Hlog, sent_after, app_assoc. reflexivity.
Qed.

(** ** What the constructor leaves on the instance *)

(** When the payload's resolved block has no roles kind the constructor
    returns, having sent nothing.  [data] is the payload's [data] itself;
    [channelID] and [guildID] are the payload's, and stay unset when the
    payload has none; [user] is built from [info.user], only when the payload
    has one.  [member] is there exactly when the payload has a member, built
    from it, with the guild the registry holds under [info.guild_id]: that
    guild when there is one, [undefined] when the registry has none under
    that ID or the payload has no [guild_id]. *)
Theorem constructed_fields :
  forall (info : Payload.Info) (client : Client),
    has_roles info = false ->
    exists t,
      new_CommandInteraction info client = inr t
      /\ data t = Some (Payload.data info)
      /\ channelID t = Payload.channel_id info
      /\ guildID t = Payload.guild_id info
      /\ user t = option_map (fun raw => new_User raw client) (Payload.user info)
      /\ match Payload.member info with
         | None => member t = None
         | Some raw =>
             exists m,
               member t = Some m
               /\ member_raw m = raw
               /\ member_guild m =
                    match Payload.guild_id info with
                    | Some g => match guilds client !! g with
                                | Some guild => RGuild guild
                                | None => RUndefined
                                end
                    | None => RUndefined
                    end
         end
      /\ sent (snd (Constructor.body info client
                      {| this := Interaction_constructor info client; sent := [] |})) = [].
Proof.
  run_constructor. unfold guilds_get.
  intros info client.
  destruct (Payload.channel_id info), (Payload.guild_id info),
    (Payload.member info), (Payload.user info),
    (Payload.resolved (Payload.data info)) as [[[?|] [?|] [?|] [?|] [?|]]|];
    cbn; intros H; try discriminate H; eexists; repeat split;
    try (eexists; repeat split).
Qed.

Lemma constructed_fields_witness :
  exists t m,
    new_CommandInteraction (Fixture.with_resolved (Fixture.only_users Fixture.empty_user))
      Scenario.with_guild = inr t
    /\ channelID t = Some "300"
    /\ guildID t = Some "400"
    /\ user t = None
    /\ member t = Some m
    /\ member_raw m = VObj [("nick", VStr "n")]
    /\ member_guild m = RGuild {| guild_id_of := "400" |}.
Proof.
  destruct (constructed_fields
              (Fixture.with_resolved (Fixture.only_users Fixture.empty_user))
              Scenario.with_guild eq_refl)
    as (t & Hnew & _ & Hc & Hg & Hu & Hm & _).
  cbn [Payload.member Fixture.with_resolved Payload.guild_id] in Hm.
  destruct Hm as (m & Hm & Hraw & Hguild).
  exists t, m. split; [exact Hnew|]. split; [exact Hc|]. split; [exact Hg|].
  split; [exact Hu|]. split; [exact Hm|]. split; [exact Hraw|].
  rewrite Hguild. unfold Scenario.with_guild. cbn [guilds].
  now rewrite lookup_singleton_eq.
Defined.

(** ** SKU and Subscription *)

(** [getEntitlements] puts [skuIDs: [this.id]] first and the caller's
    options after it: every option goes through as it is, and an option named
    [skuIDs] replaces the SKU's own ID.  With no options, or [null], the
    argument is [{skuIDs: [this.id]}] alone. *)
Theorem entitlement_options :
  forall (this : SKU.SKU) (props : list (string * value)),
    List.NoDup (keys props) ->
    exists body,
      SKU.getEntitlements this (VObj props) = SKU.Client_getEntitlements (VObj body)
      /\ JS.assoc "skuIDs" body
         = Some (match JS.assoc "skuIDs" props with
                 | Some x => x
                 | None => VArr [SKU.id this] []
                 end)
      /\ (forall k, k <> "skuIDs" -> JS.assoc k body = JS.assoc k props)
      /\ SKU.getEntitlements this VUndefined
         = SKU.Client_getEntitlements (VObj [("skuIDs", VArr [SKU.id this] [])])
      /\ SKU.getEntitlements this VNull = SKU.getEntitlements this VUndefined.
Proof.
  intros this props Hnd. unfold SKU.getEntitlements, SKU.default_object, JS.Object_assign.
  cbn [JS.is_undefined JS.own_enumerable fold_left]. eexists.
  split; [reflexivity|]. split; [|split; [|split; reflexivity]].
  - rewrite assoc_after_assign by exact Hnd.
    destruct (JS.assoc "skuIDs" props); reflexivity.
  - intros k Hk. rewrite assoc_after_assign by exact Hnd.
    destruct (JS.assoc k props); [reflexivity|].
    cbn. destruct (String.eqb k "skuIDs") eqn:E; [|reflexivity].
    apply String.eqb_eq in E. congruence.
Qed.

Lemma entitlement_options_witness :
  exists body,
    SKU.getEntitlements
      {| SKU.id := VStr "55"; SKU.applicationID := VStr "200"; SKU.flags := VNum 4;
         SKU.name := VStr "gold"; SKU.slug := VStr "gold"; SKU.type := VNum 5 |}
      (VObj [("limit", VNum 10); ("skuIDs", VArr [VStr "66"] [])])
    = SKU.Client_getEntitlements (VObj body)
    /\ JS.assoc "skuIDs" body = Some (VArr [VStr "66"] [])
    /\ JS.assoc "limit" body = Some (VNum 10).
Proof.
  assert (Hnd : List.NoDup (keys [("limit", VNum 10); ("skuIDs", VArr [VStr "66"] [])])).
  { repeat constructor; cbn; intuition discriminate. }
  destruct (entitlement_options
              {| SKU.id := VStr "55"; SKU.applicationID := VStr "200"; SKU.flags := VNum 4;
                 SKU.name := VStr "gold"; SKU.slug := VStr "gold"; SKU.type := VNum 5 |}
              [("limit", VNum 10); ("skuIDs", VArr [VStr "66"] [])] Hnd)
    as (body & Hcall & Hids & Hother & _).
  exists body. split; [exact Hcall|]. split; [exact Hids|].
  apply (Hother "limit"). discriminate.
Defined.

(** The timestamps of a subscription.  [currentPeriodEnd] and
    [currentPeriodStart] are always assigned: [null] for a missing, [null],
    empty or zero value, and otherwise the parse of that very value,
    [current_period_end] for the one and [current_period_start] for the
    other.  [canceledAt] is left unassigned exactly when the payload has no
    [canceled_at]; present but falsy, [null] included, it is [null]; truthy,
    it is the parse of [canceled_at].  [Date.parse] is never applied to a
    falsy value. *)
Theorem subscription_timestamps :
  forall (data : list (string * value)),
    let s := Subscription.constructor data in
    let at_ k := JS.prop (VObj data) k in
    (Subscription.canceledAt s = None <-> at_ "canceled_at" = VUndefined)
    /\ (Subscription.canceledAt s = Some Subscription.Null
        <-> at_ "canceled_at" <> VUndefined /\ JS.truthy (at_ "canceled_at") = false)
    /\ (forall v,
          Subscription.canceledAt s = Some (Subscription.Date_parse v)
          <-> v = at_ "canceled_at" /\ JS.truthy v = true)
    /\ (Subscription.currentPeriodEnd s = Subscription.Null
        <-> JS.truthy (at_ "current_period_end") = false)
    /\ (forall v,
          Subscription.currentPeriodEnd s = Subscription.Date_parse v
          <-> v = at_ "current_period_end" /\ JS.truthy v = true)
    /\ (Subscription.currentPeriodStart s = Subscription.Null
        <-> JS.truthy (at_ "current_period_start") = false)
    /\ (forall v,
          Subscription.currentPeriodStart s = Subscription.Date_parse v
          <-> v = at_ "current_period_start" /\ JS.truthy v = true).
Proof.
  intros data s at_. subst s at_. unfold Subscription.constructor.
  cbn [Subscription.canceledAt Subscription.currentPeriodEnd
       Subscription.currentPeriodStart].
  generalize (JS.prop (VObj data) "canceled_at") as canceled.
  generalize (JS.prop (VObj data) "current_period_end") as cend.
  generalize (JS.prop (VObj data) "current_period_start") as cstart.
  intros cstart cend canceled.
  assert (Hparse : forall x v,
             (if JS.truthy x then Subscription.Date_parse x else Subscription.Null)
             = Subscription.Date_parse v
             <-> v = x /\ JS.truthy v = true).
  { intros x v. destruct (JS.truthy x) eqn:T; split.
    - intros [= <-]. auto.
    - now intros [-> _].
    - discriminate.
    - intros [-> T']. congruence. }
  split; [|split; [|split; [|split; [|split; [|split]]]]].
  - destruct canceled; cbn; split; congruence.
  - destruct canceled as [| |[|]|n|str| |]; cbn;
      try destruct (n =? 0)%Z; try destruct (String.eqb str ""); cbn;
      split; try congruence; try (intros [? ?]; congruence);
      try (intros _; split; congruence).
  - intros v. destruct (JS.is_undefined canceled) eqn:U; cbn.
    + split; [discriminate|]. intros [-> T].
      destruct canceled; discriminate.
    + rewrite <- Hparse. split; [now intros [= ->] | now intros ->].
  - destruct (JS.truthy cend); split; congruence.
  - intros v. apply Hparse.
  - destruct (JS.truthy cstart); split; congruence.
  - intros v. apply Hparse.
Qed.

Lemma subscription_timestamps_witness :
  Subscription.canceledAt
    (Subscription.constructor
       [("canceled_at", VNull); ("current_period_end", VStr "2024-05-01T00:00:00Z");
        ("current_period_start", VStr "")])
  = Some Subscription.Null
  /\ Subscription.currentPeriodEnd
       (Subscription.constructor
          [("canceled_at", VNull); ("current_period_end", VStr "2024-05-01T00:00:00Z");
           ("current_period_start", VStr "")])
     = Subscription.Date_parse (VStr "2024-05-01T00:00:00Z")
  /\ Subscription.currentPeriodStart
       (Subscription.constructor
          [("canceled_at", VNull); ("current_period_end", VStr "2024-05-01T00:00:00Z");
           ("current_period_start", VStr "")])
     = Subscription.Null
  /\ Subscription.canceledAt (Subscription.constructor []) = None.
Proof.
  destruct (subscription_timestamps
              [("canceled_at", VNull); ("current_period_end", VStr "2024-05-01T00:00:00Z");
               ("current_period_start", VStr "")])
    as (_ & [_ Hnull] & _ & _ & Hend & [_ Hstart] & _).
  destruct (subscription_timestamps []) as ([_ Hnone] & _).
  split; [apply Hnull; split; [discriminate | reflexivity]|].
  split; [apply (Hend (VStr "2024-05-01T00:00:00Z")); split; reflexivity|].
  split; [apply Hstart; reflexivity | apply Hnone; reflexivity].
Defined.
